(** * GPBoost: binary classification metrics and the latent-effects covariance engine

    A shallow embedding of [src/LightGBM/metric/binary_metric.hpp]
    ([BinaryMetric], [BinaryLoglossMetric], [BinaryErrorMetric], [AUCMetric])
    and of the parts of the random-effects engine that the specification
    describes.

    Numeric conventions.  C++ [double] and [label_t] values are modelled by the
    real numbers: rounding, infinities and NaN are outside the model.
    [data_size_t] is a signed integer, modelled by [Z]; array positions are
    natural numbers.  A C array of [num_data_] elements is a list, read with
    [nth i a 0]. *)

From Stdlib Require Import Reals Lra Lia ZArith List String Bool Permutation
  Sorted.
Import ListNotations.

Local Open Scope R_scope.

Definition double := R.
Definition label_t := R.
Definition data_size_t := Z.

(** ** Comparisons of doubles as booleans *)

Definition dle (x y : double) : bool := if Rle_dec x y then true else false.
Definition dlt (x y : double) : bool := if Rlt_dec x y then true else false.
Definition dgt (x y : double) : bool := dlt y x.
Definition dneq (x y : double) : bool := if Req_dec_T x y then false else true.

(** A C++ [bool] converted to [double]. *)
Definition of_bool (b : bool) : double := if b then 1 else 0.

(** ** Loops over [0 .. num_data_ - 1] *)

(** The positions visited by [for (data_size_t i = 0; i < n; ++i)]: none when
    [n] is not positive. *)
Definition range (n : data_size_t) : list nat := seq 0 (Z.to_nat n).

(** Sum of a list of doubles, used to state results. *)
Definition dsum (l : list double) : double := fold_right Rplus 0 l.

(** ** Effects of [Eval]

    [Eval] calls into the objective function and the random-effects model and
    may stop in [Log::Fatal].  A computation yields the calls it made, in
    order, and either a value or the fatal message. *)

Inductive Call : Type :=
| CallConvertOutput (input : double)
| CallPredict (num_data_pred : data_size_t) (offset : list double).

Inductive outcome (A : Type) : Type :=
| Returned (a : A)
| FatalError (msg : string).
Arguments Returned {A} a.
Arguments FatalError {A} msg.

Definition Eff (A : Type) : Type := (list Call * outcome A)%type.

Definition ret {A} (a : A) : Eff A := ([], Returned a).

Definition bind {A B} (m : Eff A) (k : A -> Eff B) : Eff B :=
  match m with
  | (t, Returned a) => let (t', r) := k a in (t ++ t', r)
  | (t, FatalError msg) => (t, FatalError msg)
  end.

Definition emit (c : Call) : Eff unit := ([c], Returned tt).

Declare Scope eff_scope.
Delimit Scope eff_scope with eff.
Notation "x <- m ;; k" := (bind m (fun x => k))
  (at level 61, m at next level, right associativity) : eff_scope.
Notation "m ;; k" := (bind m (fun _ => k))
  (at level 61, right associativity) : eff_scope.
Local Open Scope eff_scope.

(** [Log::Fatal] (LightGBM/utils/log.h) raises: nothing after it runs. *)
Definition Log_Fatal {A} (msg : string) : Eff A := ([], FatalError msg).

Definition calls {A} (m : Eff A) : list Call := fst m.
Definition result {A} (m : Eff A) : outcome A := snd m.

(** The body of a [for] loop run once per position, threading the
    accumulator.  The loops of [Eval] are OpenMP reductions over a sum; they
    are run here in index order. *)
Fixpoint for_each {S : Type} (idx : list nat) (body : nat -> S -> Eff S) (s : S)
  : Eff S :=
  match idx with
  | [] => ret s
  | i :: rest => s' <- body i s ;; for_each rest body s'
  end.

(** ** Collaborators of the metric *)

(** [REModel::Predict] as called by the metric: the number of prediction
    points and the score vector passed as last argument; every other argument
    of the call is a constant ([nullptr], [false], [true], [-1]).  The
    predictions are written to the output buffer, which [Eval] creates as a
    vector of [num_data_] zeros. *)
Record REModel : Type := {
  Predict : data_size_t -> list double -> list double
}.

(** The part of the [ObjectiveFunction] interface that the metric uses. *)
Record ObjectiveFunction : Type := {
  HasGPModel : bool;
  UseGPModelForValidation : bool;
  GetGPModel : REModel;
  ConvertOutput : double -> double
}.

Definition call_ConvertOutput (objective : ObjectiveFunction) (input : double)
  : Eff double :=
  emit (CallConvertOutput input) ;; ret (ConvertOutput objective input).

Definition call_Predict (re_model : REModel) (num_data_pred : data_size_t)
  (offset : list double) : Eff (list double) :=
  emit (CallPredict num_data_pred offset) ;;
  ret (Predict re_model num_data_pred offset).

Record Metadata : Type := {
  label : list label_t;
  weights : option (list label_t)
}.

(** The template parameter of [BinaryMetric]. *)
Class PointWiseLossCalculator : Type := {
  LossOnPoint : label_t -> double -> double;
  Name : string
}.

(** ** BinaryMetric *)

Module BinaryMetric.

Record t : Type := {
  metric_for_train_data_ : bool;
  num_data_ : data_size_t;
  label_ : list label_t;
  weights_ : option (list label_t);
  sum_weights_ : double;
  name_ : list string
}.

Section Metric.
Context {calc : PointWiseLossCalculator}.

Definition Init (m : t) (metadata : Metadata) (num_data : data_size_t) : t :=
  {| metric_for_train_data_ := metric_for_train_data_ m;
     num_data_ := num_data;
     label_ := label metadata;
     weights_ := weights metadata;
     sum_weights_ :=
       match weights metadata with
       | None => IZR num_data
       | Some w =>
           fold_left (fun sum_weights i => sum_weights + nth i w 0)
                     (range num_data) 0
       end;
     name_ := name_ m ++ [Name] |}.

Definition GetName (m : t) : list string := name_ m.

Definition factor_to_bigger_better (m : t) : double := -1.

Definition fatal_message : string :=
  "Cannot use the option 'use_gp_model_for_validation = true' for calculating the training data loss".

Definition Eval (m : t) (score : list double)
  (objective : option ObjectiveFunction) : Eff (list double) :=
  sum_loss <-
    match objective with
    | None =>
        match weights_ m with
        | None =>
            for_each (range (num_data_ m)) (fun i sum_loss =>
              ret (sum_loss + LossOnPoint (nth i (label_ m) 0) (nth i score 0))) 0
        | Some w =>
            for_each (range (num_data_ m)) (fun i sum_loss =>
              ret (sum_loss
                   + LossOnPoint (nth i (label_ m) 0) (nth i score 0) * nth i w 0)) 0
        end
    | Some obj =>
        match weights_ m with
        | None =>
            if HasGPModel obj && UseGPModelForValidation obj then
              (if metric_for_train_data_ m then Log_Fatal fatal_message else ret tt) ;;
              let re_model := GetGPModel obj in
              re_prop_pred <- call_Predict re_model (num_data_ m) score ;;
              for_each (range (num_data_ m)) (fun i sum_loss =>
                ret (sum_loss
                     + LossOnPoint (nth i (label_ m) 0) (nth i re_prop_pred 0))) 0
            else
              for_each (range (num_data_ m)) (fun i sum_loss =>
                prob <- call_ConvertOutput obj (nth i score 0) ;;
                ret (sum_loss + LossOnPoint (nth i (label_ m) 0) prob)) 0
        | Some w =>
            for_each (range (num_data_ m)) (fun i sum_loss =>
              prob <- call_ConvertOutput obj (nth i score 0) ;;
              ret (sum_loss + LossOnPoint (nth i (label_ m) 0) prob * nth i w 0)) 0
        end
    end ;;
  let loss := sum_loss / sum_weights_ m in
  ret [loss].

End Metric.

End BinaryMetric.

(** ** BinaryLoglossMetric and BinaryErrorMetric *)

Module BinaryLoglossMetric.

Section Loss.

(** [kEpsilon] is a constant declared outside this file. *)
Variable kEpsilon : double.

Definition LossOnPoint (label : label_t) (prob : double) : double :=
  if dle label 0 then
    if dgt (1 - prob) kEpsilon then - ln (1 - prob)
    else - ln kEpsilon
  else
    if dgt prob kEpsilon then - ln prob
    else - ln kEpsilon.

(** The argument that each [return] of [LossOnPoint] hands to [std::log]. *)
Definition log_argument (label : label_t) (prob : double) : double :=
  if dle label 0 then
    if dgt (1 - prob) kEpsilon then 1 - prob else kEpsilon
  else
    if dgt prob kEpsilon then prob else kEpsilon.

Definition Name : string := "binary_logloss".

Definition calculator : PointWiseLossCalculator :=
  Build_PointWiseLossCalculator LossOnPoint Name.

End Loss.

End BinaryLoglossMetric.

Module BinaryErrorMetric.

Definition LossOnPoint (label : label_t) (prob : double) : double :=
  if dle prob (1 / 2) then of_bool (dgt label 0)
  else of_bool (dle label 0).

Definition Name : string := "binary_error".

Definition calculator : PointWiseLossCalculator :=
  Build_PointWiseLossCalculator LossOnPoint Name.

End BinaryErrorMetric.

(** ** AUCMetric *)

Module AUCMetric.

Record t : Type := {
  num_data_ : data_size_t;
  label_ : list label_t;
  weights_ : option (list label_t);
  sum_weights_ : double;
  name_ : list string
}.

Definition Init (m : t) (metadata : Metadata) (num_data : data_size_t) : t :=
  {| num_data_ := num_data;
     label_ := label metadata;
     weights_ := weights metadata;
     sum_weights_ :=
       match weights metadata with
       | None => IZR num_data
       | Some w =>
           fold_left (fun sum_weights i => sum_weights + nth i w 0)
                     (range num_data) 0
       end;
     name_ := name_ m ++ ["auc"%string] |}.

Definition GetName (m : t) : list string := name_ m.

Definition factor_to_bigger_better (m : t) : double := 1.

(** The local variables of [Eval] that the loops update. *)
Record locals : Type := {
  cur_pos : double;
  sum_pos : double;
  accum : double;
  cur_neg : double;
  threshold : double
}.

(** The block run when the score differs from the current threshold. *)
Definition new_threshold (cur_score : double) (v : locals) : locals :=
  if dneq cur_score (threshold v) then
    {| threshold := cur_score;
       accum := accum v + cur_neg v * (cur_pos v * (1 / 2) + sum_pos v);
       sum_pos := sum_pos v + cur_pos v;
       cur_neg := 0;
       cur_pos := 0 |}
  else v.

Definition step_no_weights (label_ score : list double) (sorted_idx : list nat)
  (i : nat) (v : locals) : locals :=
  let cur_label := nth (nth i sorted_idx 0%nat) label_ 0 in
  let cur_score := nth (nth i sorted_idx 0%nat) score 0 in
  let v := new_threshold cur_score v in
  {| threshold := threshold v;
     accum := accum v;
     sum_pos := sum_pos v;
     cur_neg := cur_neg v + of_bool (dle cur_label 0);
     cur_pos := cur_pos v + of_bool (dgt cur_label 0) |}.

Definition step_weights (label_ score weights_ : list double)
  (sorted_idx : list nat) (i : nat) (v : locals) : locals :=
  let cur_label := nth (nth i sorted_idx 0%nat) label_ 0 in
  let cur_score := nth (nth i sorted_idx 0%nat) score 0 in
  let cur_weight := nth (nth i sorted_idx 0%nat) weights_ 0 in
  let v := new_threshold cur_score v in
  {| threshold := threshold v;
     accum := accum v;
     sum_pos := sum_pos v;
     cur_neg := cur_neg v + of_bool (dle cur_label 0) * cur_weight;
     cur_pos := cur_pos v + of_bool (dgt cur_label 0) * cur_weight |}.

Section Eval.

(** [Common::ParallelSort] (LightGBM/utils/common.h) is declared outside this
    file: it reorders a range according to a comparison. *)
Variable ParallelSort : (nat -> nat -> bool) -> list nat -> list nat.

(** [threshold] starts at [score[sorted_idx[0]]]; for an empty [sorted_idx]
    the model reads the default of [nth], and the value is never used. *)
Definition Eval (m : t) (score : list double)
  (objective : option ObjectiveFunction) : list double :=
  let sorted_idx :=
    ParallelSort (fun a b => dgt (nth a score 0) (nth b score 0))
                 (range (num_data_ m)) in
  let v0 := {| cur_pos := 0; sum_pos := 0; accum := 0; cur_neg := 0;
               threshold := nth (nth 0 sorted_idx 0%nat) score 0 |} in
  let v :=
    match weights_ m with
    | None =>
        fold_left (fun v i => step_no_weights (label_ m) score sorted_idx i v)
                  (range (num_data_ m)) v0
    | Some w =>
        fold_left (fun v i => step_weights (label_ m) score w sorted_idx i v)
                  (range (num_data_ m)) v0
    end in
  let accum := accum v + cur_neg v * (cur_pos v * (1 / 2) + sum_pos v) in
  let sum_pos := sum_pos v + cur_pos v in
  let auc :=
    if dgt sum_pos 0 && dneq sum_pos (sum_weights_ m)
    then accum / (sum_pos * (sum_weights_ m - sum_pos))
    else 1 in
  [auc].

End Eval.

(** A sort by insertion, one admissible behaviour of [Common::ParallelSort]. *)
Fixpoint insert_by (cmp : nat -> nat -> bool) (a : nat) (l : list nat) : list nat :=
  match l with
  | [] => [a]
  | b :: rest => if cmp b a then b :: insert_by cmp a rest else a :: l
  end.

Definition insertion_sort (cmp : nat -> nat -> bool) (l : list nat) : list nat :=
  fold_right (insert_by cmp) [] l.

End AUCMetric.

(** * The latent-effects covariance engine

    The covariance components, the composite model, the optimizer and the
    prediction of the random-effects model are not part of the source files
    at hand; the definitions below follow the specification. *)

(** ** Dense matrices given by their entries *)

Record Matrix : Type := {
  nrows : nat;
  ncols : nat;
  entry : nat -> nat -> R
}.

Definition msum (m : nat) (f : nat -> R) : R := dsum (map f (seq 0 m)).

Definition mmul (A B : Matrix) : Matrix :=
  {| nrows := nrows A;
     ncols := ncols B;
     entry := fun i j => msum (ncols A) (fun l => entry A i l * entry B l j) |}.

Definition transpose (A : Matrix) : Matrix :=
  {| nrows := ncols A; ncols := nrows A; entry := fun i j => entry A j i |}.

Definition madd (A B : Matrix) : Matrix :=
  {| nrows := nrows A; ncols := ncols A;
     entry := fun i j => entry A i j + entry B i j |}.

Definition msub (A B : Matrix) : Matrix :=
  {| nrows := nrows A; ncols := ncols A;
     entry := fun i j => entry A i j - entry B i j |}.

Definition delta (i j : nat) : R := if Nat.eqb i j then 1 else 0.

Definition scaled_identity (n : nat) (c : R) : Matrix :=
  {| nrows := n; ncols := n; entry := fun i j => c * delta i j |}.

Definition zero_matrix (n : nat) : Matrix :=
  {| nrows := n; ncols := n; entry := fun _ _ => 0 |}.

(** Product of a matrix with a vector. *)
Definition mvec (A : Matrix) (v : list R) : list R :=
  map (fun i => msum (ncols A) (fun l => entry A i l * nth l v 0))
      (seq 0 (nrows A)).

(** Modelled from the spec: the error kinds of its error handling design,
    which no source file at hand declares. *)
Inductive ErrorKind : Type :=
| InvalidParameter
| FactorizationFailure
| OptimizerNonConvergence
| ConfigurationConflict.

Inductive fallible (A : Type) : Type :=
| Success (a : A)
| Failure (e : ErrorKind).
Arguments Success {A} a.
Arguments Failure {A} e.

Module Covariance.

Definition coord : Type := list R.

(** Modelled from the spec: the kernel types of a kernel component, "type in
    {exponential, squared-exponential, ...}", not in the source files. *)
Inductive KernelType : Type :=
| exponential
| squared_exponential.

(** Modelled from the spec: the covariance components are not in the source
    files.  "k is monotone-decreasing (exponential: exp(-d/rho);
    squared-exponential: exp(-(d/rho)^2))"; the function is applied to
    [d / rho]. *)
Definition k (type : KernelType) (x : R) : R :=
  match type with
  | exponential => exp (- x)
  | squared_exponential => exp (- (x ^ 2))
  end.

(** Modelled from the spec: the tagged variant of the data model, "Kernel(type,
    range rho, marginal variance sigma_1^2)" over a coordinate matrix and
    "GroupedEffect(grouping key, optional random-slope covariate)".  The [Sum]
    variant is the component list of [CompositeCovarianceModel] below. *)
Inductive CovarianceComponent : Type :=
| Kernel (type : KernelType) (rho sigma2_1 : R) (coords : list coord)
| GroupedEffect (variance : R) (group : list nat) (rand_slope : option (list R)).

(** Modelled from the spec: the distinct levels of a grouping key, for the
    grouped component that is not in the source files. *)
Definition levels (group : list nat) : list nat := nodup Nat.eq_dec group.

(** Modelled from the spec: construction of a component, which is not in the
    source files.  "both sigma_1^2 and rho must be strictly positive, validated
    at construction"; "constructing a kernel with rho <= 0 or a grouping key
    with fewer than 2 distinct levels is rejected with an InvalidParameter
    error"; "InvalidParameter (non-positive variance/range, malformed grouping
    structure)". *)
Definition make_kernel (type : KernelType) (rho sigma2_1 : R)
  (coords : list coord) : fallible CovarianceComponent :=
  if dle rho 0 then Failure InvalidParameter
  else if dle sigma2_1 0 then Failure InvalidParameter
  else Success (Kernel type rho sigma2_1 coords).

Definition make_grouped (variance : R) (group : list nat)
  (rand_slope : option (list R)) : fallible CovarianceComponent :=
  if dle variance 0 then Failure InvalidParameter
  else if (List.length (levels group) <? 2)%nat then Failure InvalidParameter
  else Success (GroupedEffect variance group rand_slope).

Section Components.

(** The distance between two locations. *)
Variable d : coord -> coord -> R.

(** Modelled from the spec: "BuildCovariance(theta_k) -> Cov_k", not in the
    source files.  Kernel: "Cov_k[i,j] = sigma_1^2 * k(d(s_i,s_j)/rho)".
    Grouped: "Cov_k is diagonal per distinct level, scaled by the component's
    variance". *)
Definition BuildCovariance (c : CovarianceComponent) : Matrix :=
  match c with
  | Kernel type rho sigma2_1 coords =>
      {| nrows := List.length coords;
         ncols := List.length coords;
         entry := fun i j =>
           sigma2_1 * k type (d (nth i coords []) (nth j coords []) / rho) |}
  | GroupedEffect variance group _ =>
      scaled_identity (List.length (levels group)) variance
  end.

(** Modelled from the spec: the incidence relation of a component, "dense
    coordinate matrix for kernels, sparse 0/1 or covariate-weighted incidence
    matrix for grouped effects", the random slope acting "by elementwise
    scaling of the incidence matrix". *)
Definition BuildIncidence (c : CovarianceComponent) : Matrix :=
  match c with
  | Kernel _ _ _ coords =>
      scaled_identity (List.length coords) 1
  | GroupedEffect _ group rand_slope =>
      {| nrows := List.length group;
         ncols := List.length (levels group);
         entry := fun i l =>
           (if Nat.eqb (nth i group 0%nat) (nth l (levels group) 0%nat)
            then 1 else 0)
           * match rand_slope with
             | None => 1
             | Some x => nth i x 0
             end |}
  end.

(** Modelled from the spec: the share of a component in the hyperparameter
    vector theta, which the composite model (not in the source files) owns:
    marginal variance and range for a kernel, the variance for a grouped
    effect. *)
Definition num_params (c : CovarianceComponent) : nat :=
  match c with
  | Kernel _ _ _ _ => 2
  | GroupedEffect _ _ _ => 1
  end.

(** Modelled from the spec: a component (not in the source files) at the
    parameters theta_k. *)
Definition set_params (c : CovarianceComponent) (theta_k : list R)
  : CovarianceComponent :=
  match c with
  | Kernel type rho sigma2_1 coords =>
      Kernel type (nth 1 theta_k rho) (nth 0 theta_k sigma2_1) coords
  | GroupedEffect variance group rand_slope =>
      GroupedEffect (nth 0 theta_k variance) group rand_slope
  end.

(** Modelled from the spec: the term "Z_k Cov_k(theta_k) Z_k^t" of one
    component in the total covariance, not in the source files. *)
Definition component_covariance (c : CovarianceComponent) : Matrix :=
  mmul (mmul (BuildIncidence c) (BuildCovariance c)) (transpose (BuildIncidence c)).

(** Modelled from the spec: "CompositeCovarianceModel: owns the list of
    CovarianceComponents and theta", not in the source files.  The error
    variance is the first entry of theta, followed by the parameters of the
    components in order. *)
Record CompositeCovarianceModel : Type := {
  num_data : nat;
  components : list CovarianceComponent
}.

(** Modelled from the spec: the sum "Sum_k Z_k Cov_k(theta_k) Z_k^t" over the
    components of the composite model (not in the source files), each taking
    its parameters from theta in order. *)
Fixpoint assemble_components (n : nat) (cs : list CovarianceComponent)
  (theta : list R) : Matrix :=
  match cs with
  | [] => zero_matrix n
  | c :: rest =>
      madd (component_covariance (set_params c (firstn (num_params c) theta)))
           (assemble_components n rest (skipn (num_params c) theta))
  end.

(** Modelled from the spec: "Assemble(theta) -> Sigma" with
    "Sigma(theta) = Sum_k Z_k Cov_k(theta_k) Z_k^t + sigma^2 I". *)
Definition Assemble (model : CompositeCovarianceModel) (theta : list R) : Matrix :=
  madd (assemble_components (num_data model) (components model) (tl theta))
       (scaled_identity (num_data model) (hd 0 theta)).

(** Modelled from the spec: "Jitter() adds a fixed small diagonal epsilon". *)
Definition Jitter (epsilon : R) (Sigma : Matrix) : Matrix :=
  madd Sigma (scaled_identity (nrows Sigma) epsilon).

End Components.

End Covariance.

(** ** The simulation of the tutorial (chunk [simulate_data])

    [Sigma <- exp(-D/rho)+diag(1E-10,n_all)] for ["exponential"] and
    [Sigma <- exp(-(D/rho)^2)+diag(1E-10,n_all)] for ["gaussian"], where [D]
    is the matrix of pairwise distances; [Sigma] stays unassigned for any
    other [cov_function]. *)

Module Tutorial.

Definition Sigma (cov_function : string) (D : Matrix) (rho : R) (n_all : nat)
  : option Matrix :=
  if String.eqb cov_function "exponential" then
    Some (madd {| nrows := nrows D; ncols := ncols D;
                  entry := fun i j => exp (- entry D i j / rho) |}
               (scaled_identity n_all (1 / 10 ^ 10)))
  else if String.eqb cov_function "gaussian" then
    Some (madd {| nrows := nrows D; ncols := ncols D;
                  entry := fun i j => exp (- (entry D i j / rho) ^ 2) |}
               (scaled_identity n_all (1 / 10 ^ 10)))
  else None.

(** The result of [predict] as the tutorial reads it. *)
Record prediction : Type := {
  fixed_effect : list R;
  random_effect_mean : list R;
  random_effect_cov : option Matrix
}.

(** [y_pred <- pred$fixed_effect + pred$random_effect_mean], on vectors of
    equal length. *)
Definition y_pred (pred : prediction) : list R :=
  map (fun p => fst p + snd p)
      (combine (fixed_effect pred) (random_effect_mean pred)).

End Tutorial.

(** ** Prediction of the random-effects model *)

Module RandomEffects.

Section Predict.

(** The state a fitted model predicts from: the inverse of the assembled
    training covariance, the training residual, and for a query the
    cross-covariance between new and training points and the covariance among
    the new points. *)
Variable query : Type.
Variable Sigma_inv : Matrix.
Variable residual : list R.
Variable cross : query -> Matrix.
Variable cov_new : query -> Matrix.

(** Modelled from the spec: the posterior mean of the random effect, not in
    the source files: "cross-covariance between new and training points times
    Sigma^-1 times the training residual". *)
Definition posterior_mean (q : query) : list R :=
  mvec (mmul (cross q) Sigma_inv) residual.

(** Modelled from the spec: the posterior covariance of the random effect, not
    in the source files: "cross-covariance minus cross * Sigma^-1 * cross^t",
    the first term read as the covariance among the new points. *)
Definition posterior_cov (q : query) : Matrix :=
  msub (cov_new q)
       (mmul (mmul (cross q) Sigma_inv) (transpose (cross q))).

(** Modelled from the spec: "Predict(newCoordsOrGroups, predictCovariance:
    bool)" of the random-effects model, not in the source files: "returns the
    posterior mean of the random-effect component at the new inputs and, if
    requested, the posterior covariance/variance", the covariance "gated behind
    the boolean flag". *)
Definition Predict (newCoordsOrGroups : query) (predictCovariance : bool)
  : list R * option Matrix :=
  (posterior_mean newCoordsOrGroups,
   if predictCovariance then Some (posterior_cov newCoordsOrGroups) else None).

(** The external tree engine: "Predict(X) -> seq<double>". *)
Variable features : Type.
Variable tree_Predict : features -> list R.

(** Modelled from the spec: the prediction output, not in the source files:
    "a structured result exposing the fixed-effect prediction, the
    random-effect posterior mean, and (optionally) the random-effect posterior
    covariance/variance, kept separate". *)
Definition predict (X : features) (newCoordsOrGroups : query)
  (predictCovariance : bool) : Tutorial.prediction :=
  let re := Predict newCoordsOrGroups predictCovariance in
  {| Tutorial.fixed_effect := tree_Predict X;
     Tutorial.random_effect_mean := fst re;
     Tutorial.random_effect_cov := snd re |}.

End Predict.

End RandomEffects.

(** ** The covariance optimizer *)

Module Optimizer.

Definition vadd (a b : list R) : list R :=
  map (fun p => fst p + snd p) (combine a b).

Definition vsub (a b : list R) : list R :=
  map (fun p => fst p - snd p) (combine a b).

Definition vscale (c : R) (a : list R) : list R := map (Rmult c) a.

(** Largest absolute difference between the entries of two vectors. *)
Definition vdist (a b : list R) : R :=
  fold_right Rmax 0 (map Rabs (vsub a b)).

(** Modelled from the spec: "optimizer kind in {gradient_descent,
    fisher_scoring}" of the optimizer, which is not in the source files. *)
Inductive OptimizerKind : Type :=
| gradient_descent
| fisher_scoring.

(** Modelled from the spec: the configuration of the optimizer, which is not
    in the source files.  The options are named as the tutorial passes them to
    [set_optim_params] ([optimizer_cov], [lr_cov], [use_nesterov_acc],
    [acc_rate_cov], [trace]); the spec adds the convergence tolerance, the
    iteration bound, the "configured number of consecutive iterations" a
    factorization may fail, and the shrinking of a failed step. *)
Record Config : Type := {
  optimizer_cov : OptimizerKind;
  lr_cov : R;
  use_nesterov_acc : bool;
  acc_rate_cov : R;
  trace : bool;
  tolerance : R;
  max_iter : nat;
  max_failures : nat;
  shrink : R
}.

(** Modelled from the spec: the states of an optimization call (the optimizer
    is not in the source files), "Init -> Iterate -> {Converged,
    MaxIterReached, Diverged}". *)
Inductive Status : Type :=
| Init
| Iterate
| Converged
| MaxIterReached
| Diverged.

(** Modelled from the spec: the "explicit optimizer-state struct" of the
    optimizer, which is not in the source files: the hyperparameter vector
    held by the model with its log-likelihood, the previous iterate for the
    momentum, the current step and momentum, the count of consecutive
    factorization failures, the warnings reported to the caller, and the log
    of every evaluation of the likelihood (most recent first). *)
Record State : Type := {
  status : Status;
  theta : list R;
  theta_prev : list R;
  loglik : R;
  step_size : R;
  momentum : R;
  failures : nat;
  iterations : nat;
  warnings : list ErrorKind;
  evaluations : list (list R * option R)
}.

Section Run.

Variable cfg : Config.

(** The likelihood engine: the log-likelihood at a hyperparameter vector,
    [None] when the factorization fails; the gradient; the direction solving
    the Fisher-information system. *)
Variable LogLikelihood : list R -> option R.
Variable Gradient : list R -> list R.
Variable FisherDirection : list R -> list R.

(** Modelled from the spec: the step direction of the optimizer (not in the
    source files), the gradient or, "for Fisher scoring", the solution of "the
    Fisher-information linear system". *)
Definition direction (v : list R) : list R :=
  match optimizer_cov cfg with
  | gradient_descent => Gradient v
  | fisher_scoring => FisherDirection v
  end.

(** Modelled from the spec: the state machine of the covariance optimizer, not
    in the source files.  "States: Init -> Iterate -> {Converged,
    MaxIterReached, Diverged}". *)
Definition init (theta0 : list R) : State :=
  match LogLikelihood theta0 with
  | Some ll =>
      {| status := Iterate; theta := theta0; theta_prev := theta0;
         loglik := ll; step_size := lr_cov cfg; momentum := acc_rate_cov cfg;
         failures := 0; iterations := 0; warnings := [];
         evaluations := [] |}
  | None =>
      {| status := Diverged; theta := theta0; theta_prev := theta0;
         loglik := 0; step_size := lr_cov cfg; momentum := acc_rate_cov cfg;
         failures := 1; iterations := 0; warnings := [FactorizationFailure];
         evaluations := [] |}
  end.

(** Modelled from the spec: "maintain an auxiliary look-ahead point
    v_t = theta_t + acc_rate * (theta_t - theta_{t-1}), evaluate the gradient at
    v_t, and update from there". *)
Definition look_ahead (s : State) : list R :=
  if use_nesterov_acc cfg
  then vadd (theta s) (vscale (momentum s) (vsub (theta s) (theta_prev s)))
  else theta s.

(** Modelled from the spec: the update of the optimizer (not in the source
    files), "theta_{t+1} = theta_t + lr * g_t", taken from the look-ahead
    point. *)
Definition candidate (s : State) : list R :=
  vadd (look_ahead s) (vscale (step_size s) (direction (look_ahead s))).

(** Modelled from the spec: one transition out of [Iterate].  "Transition to
    Converged: change in log-likelihood or in theta falls below a tolerance";
    "Transition to Diverged: likelihood decreases beyond a tolerance or
    factorization fails repeatedly; caller is notified with a non-fatal warning
    and the last valid theta is retained"; a factorization failure is
    "recoverable within the optimizer by shrinking the step or reducing
    momentum; if persistent across a configured number of consecutive
    iterations, the optimizer halts". *)
Definition iterate (s : State) : State :=
  if (max_iter cfg <=? iterations s)%nat then
    {| status := MaxIterReached; theta := theta s; theta_prev := theta_prev s;
       loglik := loglik s; step_size := step_size s; momentum := momentum s;
       failures := failures s; iterations := iterations s;
       warnings := OptimizerNonConvergence :: warnings s;
       evaluations := evaluations s |}
  else
    let c := candidate s in
    match LogLikelihood c with
    | None =>
        if (max_failures cfg <=? S (failures s))%nat then
          {| status := Diverged; theta := theta s; theta_prev := theta_prev s;
             loglik := loglik s; step_size := step_size s;
             momentum := momentum s; failures := S (failures s);
             iterations := S (iterations s);
             warnings := FactorizationFailure :: warnings s;
             evaluations := (c, None) :: evaluations s |}
        else
          {| status := Iterate; theta := theta s; theta_prev := theta_prev s;
             loglik := loglik s; step_size := shrink cfg * step_size s;
             momentum := shrink cfg * momentum s; failures := S (failures s);
             iterations := S (iterations s);
             warnings := warnings s;
             evaluations := (c, None) :: evaluations s |}
    | Some ll =>
        if dlt ll (loglik s - tolerance cfg) then
          {| status := Diverged; theta := theta s; theta_prev := theta_prev s;
             loglik := loglik s; step_size := step_size s;
             momentum := momentum s; failures := failures s;
             iterations := S (iterations s);
             warnings := OptimizerNonConvergence :: warnings s;
             evaluations := (c, Some ll) :: evaluations s |}
        else
          {| status :=
               if dlt (Rabs (ll - loglik s)) (tolerance cfg)
                  || dlt (vdist c (theta s)) (tolerance cfg)
               then Converged else Iterate;
             theta := c; theta_prev := theta s;
             loglik := ll; step_size := step_size s; momentum := momentum s;
             failures := 0; iterations := S (iterations s);
             warnings := warnings s;
             evaluations := (c, Some ll) :: evaluations s |}
    end.

(** Modelled from the spec: the repetition of "Iterate -> Iterate" until
    another state is reached, for the optimizer that is not in the source
    files. *)
Fixpoint run (fuel : nat) (s : State) : State :=
  match fuel with
  | O => s
  | S fuel' =>
      match status s with
      | Iterate => run fuel' (iterate s)
      | _ => s
      end
  end.

(** Modelled from the spec: one optimization call of the optimizer (not in
    the source files) "given fixed residual r"; the fuel covers [max_iter]
    iterations and the transition to [MaxIterReached]. *)
Definition optimize (theta0 : list R) : State :=
  run (S (max_iter cfg)) (init theta0).

(** Modelled from the spec: "the last valid theta" of a run of the optimizer
    (not in the source files), read off the sequence of its evaluations
    (oldest first) alone: an evaluation replaces the current vector
    when it succeeded and its log-likelihood did not fall below the current
    one by more than the tolerance. *)
Fixpoint last_valid (cur : list R * R) (evals : list (list R * option R))
  : list R * R :=
  match evals with
  | [] => cur
  | (th, Some ll) :: rest =>
      if dlt ll (snd cur - tolerance cfg) then last_valid cur rest
      else last_valid (th, ll) rest
  | (_, None) :: rest => last_valid cur rest
  end.

End Run.

End Optimizer.

(** * Notions used to state further properties of the metrics *)

(** The weight of sample [i]: 1 when the metric has no weights. *)
Definition weight_of (weights_ : option (list label_t)) (i : nat) : double :=
  match weights_ with
  | None => 1
  | Some w => nth i w 0
  end.

(** Whether [BinaryMetric::Eval] takes the branch that predicts with the
    random-effects model: an objective with a GP model used for validation,
    and no sample weights. *)
Definition uses_gp_validation (m : BinaryMetric.t)
  (objective : option ObjectiveFunction) : bool :=
  match objective, BinaryMetric.weights_ m with
  | Some obj, None => HasGPModel obj && UseGPModelForValidation obj
  | _, _ => false
  end.

(** The configuration in which [BinaryMetric::Eval] stops in [Log::Fatal]:
    that branch, for a metric of the training data. *)
Definition stops_in_fatal (m : BinaryMetric.t)
  (objective : option ObjectiveFunction) : bool :=
  uses_gp_validation m objective && BinaryMetric.metric_for_train_data_ m.

(** The value [BinaryMetric::Eval] hands to [LossOnPoint] for sample [i]: the
    raw score without objective, the prediction of the random-effects model
    on the branch above, the converted score otherwise. *)
Definition prob_of (m : BinaryMetric.t) (score : list double)
  (objective : option ObjectiveFunction) (i : nat) : double :=
  match objective with
  | None => nth i score 0
  | Some obj =>
      if uses_gp_validation m objective
      then nth i (Predict (GetGPModel obj) (BinaryMetric.num_data_ m) score) 0
      else ConvertOutput obj (nth i score 0)
  end.

(** The class a label stands for: 1 for a positive label, 0 otherwise. *)
Definition class_of (label : label_t) : label_t := of_bool (dgt label 0).


(** One pass of the unweighted loop body of [AUCMetric::Eval] for the sample
    of index [j], and the accumulator after the statement that closes the
    loop. *)
Definition visit (label_ score : list double) (j : nat) (v : AUCMetric.locals)
  : AUCMetric.locals :=
  AUCMetric.step_no_weights label_ score [j] 0 v.

Definition closing_accum (v : AUCMetric.locals) : double :=
  AUCMetric.accum v
  + AUCMetric.cur_neg v * (AUCMetric.cur_pos v * (1 / 2) + AUCMetric.sum_pos v).

(** The number of positive and of non-positive labels among the samples of the
    given indices. *)
Definition positives (label_ : list label_t) (idx : list nat) : R :=
  dsum (map (fun j => of_bool (dgt (nth j label_ 0) 0)) idx).

Definition negatives (label_ : list label_t) (idx : list nat) : R :=
  dsum (map (fun j => of_bool (dle (nth j label_ 0) 0)) idx).

(** Two states of the loop of [AUCMetric::Eval] that agree on the counters
    and whose thresholds differ by the transformation [f] of the scores. *)
Definition same_up_to_threshold (f : R -> R) (v v' : AUCMetric.locals) : Prop :=
  AUCMetric.cur_pos v' = AUCMetric.cur_pos v
  /\ AUCMetric.sum_pos v' = AUCMetric.sum_pos v
  /\ AUCMetric.accum v' = AUCMetric.accum v
  /\ AUCMetric.cur_neg v' = AUCMetric.cur_neg v
  /\ AUCMetric.threshold v' = f (AUCMetric.threshold v).

(** * More of the tutorial's simulation (chunks [simulate_data] and
      [simulate_group_data]) *)

Module Simulation.


End Simulation.



(** * Sample inputs *)

(** An objective with a GP model used for validation, a validation metric
    over two samples, and the scores the metric is evaluated at. *)
Definition sample_re_model : REModel :=
  {| Predict := fun _ offset => map (fun s => s + 1) offset |}.

Definition sample_objective : ObjectiveFunction :=
  {| HasGPModel := true;
     UseGPModelForValidation := true;
     GetGPModel := sample_re_model;
     ConvertOutput := fun x => x |}.

Definition fresh_metric (train : bool) : BinaryMetric.t :=
  {| BinaryMetric.metric_for_train_data_ := train;
     BinaryMetric.num_data_ := 0%Z;
     BinaryMetric.label_ := [];
     BinaryMetric.weights_ := None;
     BinaryMetric.sum_weights_ := 0;
     BinaryMetric.name_ := [] |}.

Definition sample_metadata : Metadata :=
  {| label := [1; 0]; weights := None |}.

Definition sample_weighted_metadata : Metadata :=
  {| label := [1; 0]; weights := Some [2; 3] |}.

Definition sample_auc : AUCMetric.t :=
  {| AUCMetric.num_data_ := 0%Z;
     AUCMetric.label_ := [];
     AUCMetric.weights_ := None;
     AUCMetric.sum_weights_ := 0;
     AUCMetric.name_ := [] |}.

Definition sample_positive_metadata : Metadata :=
  {| label := [1; 1]; weights := None |}.

(** The AUC of scores against labels, without weights, the indices sorted by
    insertion. *)
Definition auc_of (labels score : list double) : list double :=
  AUCMetric.Eval AUCMetric.insertion_sort
    (AUCMetric.Init sample_auc {| label := labels; weights := None |}
       (Z.of_nat (List.length labels)))
    score None.

(** The distance along the first coordinate. *)
Definition sample_distance (a b : Covariance.coord) : R :=
  Rabs (nth 0 a 0 - nth 0 b 0).

(** An optimizer run on one parameter whose likelihood can only be evaluated
    at non-positive values, pushed upwards by its gradient. *)
Definition sample_config : Optimizer.Config :=
  {| Optimizer.optimizer_cov := Optimizer.gradient_descent;
     Optimizer.lr_cov := 1;
     Optimizer.use_nesterov_acc := false;
     Optimizer.acc_rate_cov := 0;
     Optimizer.trace := false;
     Optimizer.tolerance := 0;
     Optimizer.max_iter := 5;
     Optimizer.max_failures := 1;
     Optimizer.shrink := 1 / 2 |}.

Definition sample_LogLikelihood (theta : list R) : option R :=
  match theta with
  | [x] => if dle x 0 then Some 0 else None
  | _ => None
  end.

Definition sample_Gradient (theta : list R) : list R := [1].

(** * Properties *)

(** ** Comparisons *)

Lemma dle_true x y : dle x y = true <-> x <= y.
Proof. unfold dle; destruct (Rle_dec x y); split; (congruence || tauto). Qed.

Lemma dlt_true x y : dlt x y = true <-> x < y.
Proof. unfold dlt; destruct (Rlt_dec x y); split; (congruence || tauto). Qed.

Lemma dgt_true x y : dgt x y = true <-> x > y.
Proof. unfold dgt, Rgt; apply dlt_true. Qed.

Lemma dle_false x y : dle x y = false <-> y < x.
Proof. unfold dle; destruct (Rle_dec x y); split; intros; (congruence || lra). Qed.

Lemma dlt_false x y : dlt x y = false <-> y <= x.
Proof. unfold dlt; destruct (Rlt_dec x y); split; intros; (congruence || lra). Qed.

Lemma dgt_false x y : dgt x y = false <-> x <= y.
Proof. unfold dgt; apply dlt_false. Qed.

Lemma dneq_false x y : dneq x y = false <-> x = y.
Proof. unfold dneq; destruct (Req_dec_T x y); split; (congruence || tauto). Qed.

Lemma dneq_true x y : dneq x y = true <-> x <> y.
Proof. unfold dneq; destruct (Req_dec_T x y); split; (congruence || tauto). Qed.

Lemma range_length n : List.length (range n) = Z.to_nat n.
Proof. unfold range; apply length_seq. Qed.

Lemma in_range i n : In i (range n) <-> (i < Z.to_nat n)%nat.
Proof. unfold range; rewrite in_seq; lia. Qed.

(** ** Loops *)

Lemma fold_left_sum (g : nat -> R) (idx : list nat) (a : R) :
  fold_left (fun s i => s + g i) idx a = a + dsum (map g idx).
Proof.
  revert a; induction idx as [|i idx IH]; intros a; simpl.
  - lra.
  - rewrite IH. lra.
Qed.

Lemma for_each_pure {S : Type} (f : nat -> S -> S) (idx : list nat) (s : S) :
  for_each idx (fun i s => ret (f i s)) s
  = ([], Returned (fold_left (fun s i => f i s) idx s)).
Proof.
  revert s; induction idx as [|i idx IH]; intros s; simpl.
  - reflexivity.
  - rewrite IH. reflexivity.
Qed.

Lemma for_each_ConvertOutput (obj : ObjectiveFunction) (input : nat -> double)
  (f : nat -> double -> double -> double) (idx : list nat) (s : double) :
  for_each idx (fun i s => prob <- call_ConvertOutput obj (input i) ;;
                           ret (f i s prob)) s
  = (map (fun i => CallConvertOutput (input i)) idx,
     Returned (fold_left (fun s i => f i s (ConvertOutput obj (input i))) idx s)).
Proof.
  revert s; induction idx as [|i idx IH]; intros s; simpl.
  - reflexivity.
  - rewrite IH. reflexivity.
Qed.

(** ** BinaryMetric::Eval *)

(** With weights and an objective, [Eval] is the weighted loop over converted
    scores, whatever the objective says about its random-effects model. *)
Lemma Eval_weighted {calc : PointWiseLossCalculator} (m : BinaryMetric.t)
  (score w : list double) (obj : ObjectiveFunction) :
  BinaryMetric.weights_ m = Some w ->
  BinaryMetric.Eval m score (Some obj)
  = (map (fun i => CallConvertOutput (nth i score 0))
         (range (BinaryMetric.num_data_ m)),
     Returned
       [dsum (map (fun i =>
                     LossOnPoint (nth i (BinaryMetric.label_ m) 0)
                                 (ConvertOutput obj (nth i score 0))
                     * nth i w 0)
                  (range (BinaryMetric.num_data_ m)))
        / BinaryMetric.sum_weights_ m]).
Proof.
  intros Hw. unfold BinaryMetric.Eval. rewrite Hw.
  rewrite (for_each_ConvertOutput obj (fun i => nth i score 0)
             (fun i s prob =>
                s + LossOnPoint (nth i (BinaryMetric.label_ m) 0) prob * nth i w 0)).
  simpl. rewrite app_nil_r.
  rewrite (fold_left_sum
             (fun i => LossOnPoint (nth i (BinaryMetric.label_ m) 0)
                                   (ConvertOutput obj (nth i score 0)) * nth i w 0)).
  rewrite Rplus_0_l. reflexivity.
Qed.

(** C3.  When sample weights are present and an objective is supplied,
    [BinaryMetric::Eval] converts every score with
    [ObjectiveFunction::ConvertOutput] and sums the weighted pointwise losses;
    it never calls [REModel::Predict] and never stops in the training-fold
    configuration check, whatever [HasGPModel], [UseGPModelForValidation] and
    [metric_for_train_data_] are. *)
Theorem Eval_weights_always_ConvertOutput
  (calc : PointWiseLossCalculator) (m : BinaryMetric.t)
  (score w : list double) (obj : ObjectiveFunction) :
  BinaryMetric.weights_ m = Some w ->
  let r := BinaryMetric.Eval m score (Some obj) in
  calls r = map (fun i => CallConvertOutput (nth i score 0))
                (range (BinaryMetric.num_data_ m))
  /\ result r
     = Returned
         [dsum (map (fun i =>
                       LossOnPoint (nth i (BinaryMetric.label_ m) 0)
                                   (ConvertOutput obj (nth i score 0))
                       * nth i w 0)
                    (range (BinaryMetric.num_data_ m)))
          / BinaryMetric.sum_weights_ m]
  /\ (forall n offset, ~ In (CallPredict n offset) (calls r))
  /\ (forall msg, result r <> FatalError msg).
Proof.
  intros Hw r. subst r. rewrite (Eval_weighted m score w obj Hw).
  unfold calls, result; simpl. repeat split.
  - intros n offset Hin. apply in_map_iff in Hin.
    destruct Hin as [i [Hi _]]. discriminate.
  - intros msg H. discriminate.
Qed.

(** Without weights, with an objective whose random-effects model is used for
    validation, on a validation set: one call of [Predict], then the loop
    over its predictions. *)
Lemma Eval_validation {calc : PointWiseLossCalculator} (m : BinaryMetric.t)
  (score : list double) (obj : ObjectiveFunction) :
  BinaryMetric.weights_ m = None ->
  HasGPModel obj = true ->
  UseGPModelForValidation obj = true ->
  BinaryMetric.metric_for_train_data_ m = false ->
  BinaryMetric.Eval m score (Some obj)
  = ([CallPredict (BinaryMetric.num_data_ m) score],
     Returned
       [dsum (map (fun i =>
                     LossOnPoint (nth i (BinaryMetric.label_ m) 0)
                       (nth i (Predict (GetGPModel obj)
                                       (BinaryMetric.num_data_ m) score) 0))
                  (range (BinaryMetric.num_data_ m)))
        / BinaryMetric.sum_weights_ m]).
Proof.
  intros Hw Hgp Huse Htrain. unfold BinaryMetric.Eval.
  rewrite Hw, Hgp, Huse, Htrain. simpl.
  rewrite (for_each_pure
             (fun i s => s + LossOnPoint (nth i (BinaryMetric.label_ m) 0)
                           (nth i (Predict (GetGPModel obj)
                                           (BinaryMetric.num_data_ m) score) 0))).
  simpl.
  rewrite (fold_left_sum
             (fun i => LossOnPoint (nth i (BinaryMetric.label_ m) 0)
                         (nth i (Predict (GetGPModel obj)
                                         (BinaryMetric.num_data_ m) score) 0))).
  rewrite Rplus_0_l. reflexivity.
Qed.

(** C2.  For a validation dataset without sample weights, when the objective
    has a GP model and [UseGPModelForValidation] is true, [BinaryMetric::Eval]
    calls [REModel::Predict] once, with the score vector as offset, and
    returns (1/num_data) times the sum over the samples of
    [LossOnPoint(label_i, re_prop_pred_i)]; no score is passed through
    [ObjectiveFunction::ConvertOutput]. *)
Theorem Eval_validation_uses_REModel_Predict
  (calc : PointWiseLossCalculator) (m0 : BinaryMetric.t) (metadata : Metadata)
  (num_data : data_size_t) (score : list double) (obj : ObjectiveFunction) :
  weights metadata = None ->
  HasGPModel obj = true ->
  UseGPModelForValidation obj = true ->
  BinaryMetric.metric_for_train_data_ m0 = false ->
  let r := BinaryMetric.Eval (BinaryMetric.Init m0 metadata num_data) score
                             (Some obj) in
  let re_prop_pred := Predict (GetGPModel obj) num_data score in
  calls r = [CallPredict num_data score]
  /\ result r
     = Returned
         [1 / IZR num_data
          * dsum (map (fun i => LossOnPoint (nth i (label metadata) 0)
                                            (nth i re_prop_pred 0))
                      (range num_data))]
  /\ (forall input, ~ In (CallConvertOutput input) (calls r)).
Proof.
  intros Hw Hgp Huse Htrain r re_prop_pred. subst r re_prop_pred.
  rewrite (Eval_validation (BinaryMetric.Init m0 metadata num_data) score obj);
    try assumption.
  unfold calls, result; simpl. rewrite Hw. repeat split.
  - do 2 f_equal. unfold Rdiv. ring.
  - intros input [H | []]. discriminate.
Qed.

Lemma Eval_validation_uses_REModel_Predict_witness :
  let r := BinaryMetric.Eval (calc := BinaryErrorMetric.calculator)
             (BinaryMetric.Init (calc := BinaryErrorMetric.calculator)
                (fresh_metric false) sample_metadata 2%Z)
             [0; 0] (Some sample_objective) in
  calls r = [CallPredict 2%Z [0; 0]]
  /\ result r
     = Returned
         [1 / IZR 2
          * dsum (map (fun i =>
                         BinaryErrorMetric.LossOnPoint (nth i [1; 0] 0)
                           (nth i (Predict sample_re_model 2%Z [0; 0]) 0))
                      (range 2%Z))]
  /\ (forall input, ~ In (CallConvertOutput input) (calls r)).
Proof.
  exact (Eval_validation_uses_REModel_Predict BinaryErrorMetric.calculator
           (fresh_metric false) sample_metadata 2%Z [0; 0] sample_objective
           eq_refl eq_refl eq_refl eq_refl).
Defined.

Lemma Eval_weights_always_ConvertOutput_witness :
  let m := BinaryMetric.Init (calc := BinaryErrorMetric.calculator)
             (fresh_metric true) sample_weighted_metadata 2%Z in
  let r := BinaryMetric.Eval (calc := BinaryErrorMetric.calculator) m [0; 0]
             (Some sample_objective) in
  calls r = map (fun i => CallConvertOutput (nth i [0; 0] 0)) (range 2%Z)
  /\ result r
     = Returned
         [dsum (map (fun i =>
                       BinaryErrorMetric.LossOnPoint (nth i [1; 0] 0)
                         (ConvertOutput sample_objective (nth i [0; 0] 0))
                       * nth i [2; 3] 0)
                    (range 2%Z))
          / BinaryMetric.sum_weights_ m]
  /\ (forall n offset, ~ In (CallPredict n offset) (calls r))
  /\ (forall msg, result r <> FatalError msg).
Proof.
  exact (Eval_weights_always_ConvertOutput BinaryErrorMetric.calculator
           (BinaryMetric.Init (calc := BinaryErrorMetric.calculator)
              (fresh_metric true) sample_weighted_metadata 2%Z)
           [0; 0] [2; 3] sample_objective eq_refl).
Defined.

(** C1, as stated, fails when sample weights are present: for a metric of the
    training data, an objective whose GP model is used for validation, and
    weights [2; 3], [BinaryMetric::Eval] returns the weighted error rate 2/5
    instead of stopping in [Log::Fatal]. *)
Lemma Eval_training_fold_with_weights_returns :
  let m := BinaryMetric.Init (calc := BinaryErrorMetric.calculator)
             (fresh_metric true) sample_weighted_metadata 2%Z in
  HasGPModel sample_objective = true
  /\ UseGPModelForValidation sample_objective = true
  /\ BinaryMetric.metric_for_train_data_ m = true
  /\ result (BinaryMetric.Eval (calc := BinaryErrorMetric.calculator) m [0; 0]
               (Some sample_objective))
     = Returned [2 / 5]
  /\ (forall msg,
        result (BinaryMetric.Eval (calc := BinaryErrorMetric.calculator) m [0; 0]
                  (Some sample_objective))
        <> FatalError msg).
Proof.
  intros m.
  assert (Hres : result (BinaryMetric.Eval (calc := BinaryErrorMetric.calculator) m [0; 0]
                           (Some sample_objective))
                 = Returned [2 / 5]).
  { rewrite (Eval_weighted (calc := BinaryErrorMetric.calculator) m [0; 0] [2; 3]
               sample_objective eq_refl).
    unfold result; simpl. unfold BinaryErrorMetric.LossOnPoint.
    assert (H1 : dle 0 (1 / 2) = true) by (apply dle_true; lra).
    assert (H2 : dgt 1 0 = true) by (apply dgt_true; lra).
    assert (H3 : dgt 0 0 = false) by (apply dgt_false; lra).
    rewrite H1, H2, H3. simpl. do 2 f_equal. field. }
  repeat split; try reflexivity.
  - exact Hres.
  - intros msg H. rewrite Hres in H. discriminate.
Qed.

(** C1, amended.  Without sample weights, when the objective has a GP model
    with [UseGPModelForValidation] and [BinaryMetric::Eval] is invoked for the
    training data, the call stops in [Log::Fatal] before any call to the
    random-effects model or the objective, and returns no metric value. *)
Theorem Eval_training_fold_is_fatal
  (calc : PointWiseLossCalculator) (m : BinaryMetric.t)
  (score : list double) (obj : ObjectiveFunction) :
  BinaryMetric.weights_ m = None ->
  HasGPModel obj = true ->
  UseGPModelForValidation obj = true ->
  BinaryMetric.metric_for_train_data_ m = true ->
  BinaryMetric.Eval m score (Some obj)
  = ([], FatalError BinaryMetric.fatal_message).
Proof.
  intros Hw Hgp Huse Htrain. unfold BinaryMetric.Eval.
  rewrite Hw, Hgp, Huse, Htrain. reflexivity.
Qed.

Lemma Eval_training_fold_is_fatal_witness :
  BinaryMetric.Eval (calc := BinaryErrorMetric.calculator)
    (BinaryMetric.Init (calc := BinaryErrorMetric.calculator)
       (fresh_metric true) sample_metadata 2%Z)
    [0; 0] (Some sample_objective)
  = ([], FatalError BinaryMetric.fatal_message).
Proof.
  exact (Eval_training_fold_is_fatal BinaryErrorMetric.calculator
           (BinaryMetric.Init (calc := BinaryErrorMetric.calculator)
              (fresh_metric true) sample_metadata 2%Z)
           [0; 0] sample_objective eq_refl eq_refl eq_refl eq_refl).
Defined.

(** ** BinaryLoglossMetric::LossOnPoint *)

Lemma ln_le_compat (x y : R) : 0 < x -> x <= y -> ln x <= ln y.
Proof.
  intros Hx [Hlt | Heq].
  - left. apply ln_increasing; assumption.
  - subst y. right. reflexivity.
Qed.

Lemma BinaryLogloss_is_log (kEpsilon : double) (label : label_t) (prob : double) :
  BinaryLoglossMetric.LossOnPoint kEpsilon label prob
  = - ln (BinaryLoglossMetric.log_argument kEpsilon label prob).
Proof.
  unfold BinaryLoglossMetric.LossOnPoint, BinaryLoglossMetric.log_argument.
  destruct (dle label 0), (dgt (1 - prob) kEpsilon), (dgt prob kEpsilon);
    reflexivity.
Qed.

Lemma BinaryLogloss_log_argument_range (kEpsilon : double) (label : label_t)
  (prob : double) :
  kEpsilon <= 1 -> 0 <= prob <= 1 ->
  kEpsilon <= BinaryLoglossMetric.log_argument kEpsilon label prob <= 1.
Proof.
  intros Hk [Hp0 Hp1]. unfold BinaryLoglossMetric.log_argument.
  destruct (dle label 0).
  - destruct (dgt (1 - prob) kEpsilon) eqn:Hg.
    + apply dgt_true in Hg. lra.
    + lra.
  - destruct (dgt prob kEpsilon) eqn:Hg.
    + apply dgt_true in Hg. lra.
    + lra.
Qed.

(** C10.  For every label and every probability in [0, 1],
    [BinaryLoglossMetric::LossOnPoint] is minus the logarithm of an argument
    that the [kEpsilon] guards keep between [kEpsilon] and 1, so the loss lies
    in [0, -log(kEpsilon)], also at [prob = 0] and [prob = 1].  [kEpsilon] is
    a constant declared outside the file: a positive number not above 1. *)
Theorem BinaryLogloss_LossOnPoint_bounded
  (kEpsilon : double) (label : label_t) (prob : double) :
  0 < kEpsilon <= 1 ->
  0 <= prob <= 1 ->
  BinaryLoglossMetric.LossOnPoint kEpsilon label prob
  = - ln (BinaryLoglossMetric.log_argument kEpsilon label prob)
  /\ kEpsilon <= BinaryLoglossMetric.log_argument kEpsilon label prob <= 1
  /\ 0 <= BinaryLoglossMetric.LossOnPoint kEpsilon label prob <= - ln kEpsilon.
Proof.
  intros [Hk0 Hk1] Hp.
  pose proof (BinaryLogloss_log_argument_range kEpsilon label prob Hk1 Hp)
    as [Hlo Hhi].
  split; [apply BinaryLogloss_is_log|].
  split; [split; assumption|].
  rewrite BinaryLogloss_is_log.
  set (x := BinaryLoglossMetric.log_argument kEpsilon label prob) in *.
  assert (Hx : 0 < x) by lra.
  pose proof (ln_le_compat x 1 Hx Hhi) as H1.
  pose proof (ln_le_compat kEpsilon x Hk0 Hlo) as H2.
  rewrite ln_1 in H1. lra.
Qed.

Lemma BinaryLogloss_LossOnPoint_bounded_witness :
  (0 < 1 / 10 ^ 15 <= 1) /\ (0 <= 0 <= 1)
  /\ 0 <= BinaryLoglossMetric.LossOnPoint (1 / 10 ^ 15) 0 0 <= - ln (1 / 10 ^ 15).
Proof.
  assert (Hk : 0 < 1 / 10 ^ 15 <= 1) by lra.
  assert (Hp : 0 <= 0 <= 1) by lra.
  split; [exact Hk|]. split; [exact Hp|].
  exact (proj2 (proj2
           (BinaryLogloss_LossOnPoint_bounded (1 / 10 ^ 15) 0 0 Hk Hp))).
Defined.

(** ** AUCMetric::Eval *)

Lemma fold_left_invariant {A B : Type} (P : A -> Prop) (f : A -> B -> A)
  (l : list B) (a : A) :
  P a ->
  (forall a b, In b l -> P a -> P (f a b)) ->
  P (fold_left f l a).
Proof.
  revert a; induction l as [|b l IH]; intros a Ha Hstep; simpl.
  - exact Ha.
  - apply IH.
    + apply Hstep; [left; reflexivity | exact Ha].
    + intros a' b' Hin. apply Hstep. right. exact Hin.
Qed.

Lemma fold_left_counting {A B : Type} (Q : nat -> A -> Prop) (f : A -> B -> A)
  (l : list B) (k : nat) (a : A) :
  Q k a ->
  (forall k a b, In b l -> Q k a -> Q (S k) (f a b)) ->
  Q (k + List.length l)%nat (fold_left f l a).
Proof.
  revert k a; induction l as [|b l IH]; intros k a Ha Hstep; simpl.
  - rewrite Nat.add_0_r. exact Ha.
  - rewrite Nat.add_succ_r. apply (IH (S k)).
    + apply Hstep; [left; reflexivity | exact Ha].
    + intros k' a' b' Hin. apply Hstep. right. exact Hin.
Qed.

(** The threshold block leaves [sum_pos + cur_pos] as it was. *)
Lemma new_threshold_total (cur_score : double) (v : AUCMetric.locals) :
  AUCMetric.sum_pos (AUCMetric.new_threshold cur_score v)
  + AUCMetric.cur_pos (AUCMetric.new_threshold cur_score v)
  = AUCMetric.sum_pos v + AUCMetric.cur_pos v.
Proof.
  unfold AUCMetric.new_threshold.
  destruct (dneq cur_score (AUCMetric.threshold v)); simpl; lra.
Qed.

Lemma new_threshold_no_pos (cur_score : double) (v : AUCMetric.locals) :
  AUCMetric.cur_pos v = 0 -> AUCMetric.sum_pos v = 0 ->
  AUCMetric.cur_pos (AUCMetric.new_threshold cur_score v) = 0
  /\ AUCMetric.sum_pos (AUCMetric.new_threshold cur_score v) = 0.
Proof.
  intros Hc Hs. unfold AUCMetric.new_threshold.
  destruct (dneq cur_score (AUCMetric.threshold v)); simpl; split; lra.
Qed.

(** Every position of the loop reads an index below [num_data_]. *)
Lemma sorted_idx_in_range (sorted_idx : list nat) (n : data_size_t) (i : nat) :
  Permutation sorted_idx (range n) -> In i (range n) ->
  (nth i sorted_idx 0%nat < Z.to_nat n)%nat.
Proof.
  intros Hperm Hi. apply in_range in Hi.
  apply in_range. apply (Permutation_in _ Hperm).
  apply nth_In. rewrite (Permutation_length Hperm), range_length. exact Hi.
Qed.

Lemma insert_by_perm (cmp : nat -> nat -> bool) (a : nat) (l : list nat) :
  Permutation (AUCMetric.insert_by cmp a l) (a :: l).
Proof.
  induction l as [|b l IH]; simpl.
  - apply Permutation_refl.
  - destruct (cmp b a).
    + apply perm_trans with (b :: a :: l).
      * apply perm_skip. exact IH.
      * apply perm_swap.
    + apply Permutation_refl.
Qed.

Lemma insertion_sort_perm (cmp : nat -> nat -> bool) (l : list nat) :
  Permutation (AUCMetric.insertion_sort cmp l) l.
Proof.
  induction l as [|a l IH]; simpl.
  - apply perm_nil.
  - apply perm_trans with (a :: AUCMetric.insertion_sort cmp l).
    + apply insert_by_perm.
    + apply perm_skip. exact IH.
Qed.

(** C9.  For every unweighted input whose labels all belong to one class (no
    positive label, or no non-positive label), [AUCMetric::Eval] returns
    exactly 1.0, whatever order [Common::ParallelSort] puts the indices in. *)
Theorem AUC_single_class_is_one
  (ParallelSort : (nat -> nat -> bool) -> list nat -> list nat)
  (m0 : AUCMetric.t) (metadata : Metadata) (num_data : data_size_t)
  (score : list double) (objective : option ObjectiveFunction) :
  (forall cmp l, Permutation (ParallelSort cmp l) l) ->
  weights metadata = None ->
  (forall i, (i < Z.to_nat num_data)%nat -> nth i (label metadata) 0 <= 0)
  \/ (forall i, (i < Z.to_nat num_data)%nat -> nth i (label metadata) 0 > 0) ->
  AUCMetric.Eval ParallelSort (AUCMetric.Init m0 metadata num_data) score
                 objective
  = [1].
Proof.
  intros Hsort Hw Hclass. unfold AUCMetric.Eval. simpl. rewrite Hw.
  set (sorted_idx :=
         ParallelSort (fun a b => dgt (nth a score 0) (nth b score 0))
                      (range num_data)).
  assert (Hperm : Permutation sorted_idx (range num_data)) by apply Hsort.
  set (v0 := {| AUCMetric.cur_pos := 0; AUCMetric.sum_pos := 0;
                AUCMetric.accum := 0; AUCMetric.cur_neg := 0;
                AUCMetric.threshold := nth (nth 0 sorted_idx 0%nat) score 0 |}).
  set (v := fold_left
              (fun v i => AUCMetric.step_no_weights (label metadata) score
                            sorted_idx i v)
              (range num_data) v0).
  destruct Hclass as [Hneg | Hpos].
  - (* no positive label: nothing is ever counted as positive *)
    assert (Hv : AUCMetric.cur_pos v = 0 /\ AUCMetric.sum_pos v = 0).
    { subst v. apply fold_left_invariant.
      - split; reflexivity.
      - intros a i Hi [Hc Hs]. unfold AUCMetric.step_no_weights. simpl.
        destruct (new_threshold_no_pos
                    (nth (nth i sorted_idx 0%nat) score 0) a Hc Hs) as [Hc' Hs'].
        rewrite Hc', Hs'.
        pose proof (Hneg _ (sorted_idx_in_range sorted_idx num_data i Hperm Hi))
          as Hl.
        match goal with
        | |- context [of_bool ?b] =>
            assert (Hg : b = false) by (apply dgt_false; exact Hl); rewrite Hg
        end.
        simpl. split; lra. }
    destruct Hv as [Hc Hs]. rewrite Hc, Hs.
    assert (Hg : dgt (0 + 0) 0 = false) by (apply dgt_false; lra).
    rewrite Hg. reflexivity.
  - (* no non-positive label: every sample is counted as positive *)
    assert (Hv : AUCMetric.sum_pos v + AUCMetric.cur_pos v
                 = INR (0 + List.length (range num_data))).
    { subst v.
      apply (fold_left_counting
               (fun k a => AUCMetric.sum_pos a + AUCMetric.cur_pos a = INR k)).
      - simpl. lra.
      - intros k a i Hi Ha. unfold AUCMetric.step_no_weights.
        cbn [AUCMetric.sum_pos AUCMetric.cur_pos].
        pose proof (new_threshold_total
                      (nth (nth i sorted_idx 0%nat) score 0) a) as Ht.
        pose proof (Hpos _ (sorted_idx_in_range sorted_idx num_data i Hperm Hi))
          as Hl.
        match goal with
        | |- context [of_bool ?b] =>
            assert (Hg : b = true) by (apply dgt_true; exact Hl); rewrite Hg
        end.
        simpl of_bool. rewrite S_INR. lra. }
    rewrite Hv, range_length. simpl Nat.add.
    destruct (Z_le_gt_dec 0 num_data) as [Hn | Hn].
    + rewrite INR_IZR_INZ, Z2Nat.id by exact Hn.
      assert (He : dneq (IZR num_data) (IZR num_data) = false)
        by (apply dneq_false; reflexivity).
      rewrite He, andb_false_r. reflexivity.
    + assert (Hz : Z.to_nat num_data = 0%nat) by lia.
      rewrite Hz. simpl INR.
      assert (Hg : dgt 0 0 = false) by (apply dgt_false; lra).
      rewrite Hg. reflexivity.
Qed.

Lemma AUC_single_class_is_one_witness :
  AUCMetric.Eval AUCMetric.insertion_sort
    (AUCMetric.Init sample_auc sample_positive_metadata 2%Z) [3; 5] None
  = [1].
Proof.
  apply (AUC_single_class_is_one AUCMetric.insertion_sort sample_auc
           sample_positive_metadata 2%Z [3; 5] None insertion_sort_perm eq_refl).
  right. intros i Hi.
  change (Z.to_nat 2) with 2%nat in Hi.
  destruct i as [|[|i]]; simpl; try lra. lia.
Defined.

(** ** The metrics on concrete inputs *)

(** Decides the comparisons of numerals left in a goal. *)
Ltac decide_comparisons :=
  repeat match goal with
  | |- context [dle ?x ?y] =>
      first [ replace (dle x y) with true by (symmetry; apply dle_true; lra)
            | replace (dle x y) with false by (symmetry; apply dle_false; lra) ]
  | |- context [dgt ?x ?y] =>
      first [ replace (dgt x y) with true by (symmetry; apply dgt_true; lra)
            | replace (dgt x y) with false by (symmetry; apply dgt_false; lra) ]
  | |- context [dneq ?x ?y] =>
      first [ replace (dneq x y) with true by (symmetry; apply dneq_true; lra)
            | replace (dneq x y) with false by (symmetry; apply dneq_false; lra) ]
  end.

Ltac run_metric :=
  unfold range; cbn [AUCMetric.Init AUCMetric.num_data_ BinaryMetric.Init
                     BinaryMetric.num_data_ List.length];
  repeat match goal with
  | |- context [Z.to_nat ?k] =>
      let n := eval vm_compute in (Z.to_nat k) in
      change (Z.to_nat k) with n
  end;
  repeat (cbn -[dle dgt dneq Rplus Rmult Rminus Rdiv Ropp Rinv ln IZR];
          decide_comparisons).

Example logloss_certain_positive :
  BinaryLoglossMetric.LossOnPoint (1 / 10 ^ 15) 1 1 = 0.
Proof.
  unfold BinaryLoglossMetric.LossOnPoint. decide_comparisons.
  rewrite ln_1. lra.
Qed.

Example logloss_wrong_positive :
  BinaryLoglossMetric.LossOnPoint (1 / 10 ^ 15) 1 0 = - ln (1 / 10 ^ 15).
Proof.
  unfold BinaryLoglossMetric.LossOnPoint. decide_comparisons. reflexivity.
Qed.

Example error_rate_without_objective :
  BinaryMetric.Eval (calc := BinaryErrorMetric.calculator)
    (BinaryMetric.Init (calc := BinaryErrorMetric.calculator)
       (fresh_metric false) sample_metadata 2%Z)
    [1 / 4; 3 / 4] None
  = ([], Returned [1]).
Proof.
  unfold BinaryMetric.Eval, BinaryErrorMetric.calculator,
    BinaryErrorMetric.LossOnPoint.
  run_metric. unfold ret. do 3 f_equal. field.
Qed.

(** One pass of the unweighted loop body over explicit locals. *)
Lemma step_no_weights_locals (label_ score : list double) (sorted_idx : list nat)
  (i : nat) (cp sp ac cn th : double) :
  AUCMetric.step_no_weights label_ score sorted_idx i
    {| AUCMetric.cur_pos := cp; AUCMetric.sum_pos := sp;
       AUCMetric.accum := ac; AUCMetric.cur_neg := cn;
       AUCMetric.threshold := th |}
  = let cur_label := nth (nth i sorted_idx 0%nat) label_ 0 in
    let cur_score := nth (nth i sorted_idx 0%nat) score 0 in
    if dneq cur_score th then
      {| AUCMetric.cur_pos := 0 + of_bool (dgt cur_label 0);
         AUCMetric.sum_pos := sp + cp;
         AUCMetric.accum := ac + cn * (cp * (1 / 2) + sp);
         AUCMetric.cur_neg := 0 + of_bool (dle cur_label 0);
         AUCMetric.threshold := cur_score |}
    else
      {| AUCMetric.cur_pos := cp + of_bool (dgt cur_label 0);
         AUCMetric.sum_pos := sp;
         AUCMetric.accum := ac;
         AUCMetric.cur_neg := cn + of_bool (dle cur_label 0);
         AUCMetric.threshold := th |}.
Proof.
  unfold AUCMetric.step_no_weights, AUCMetric.new_threshold. simpl.
  destruct (dneq _ th); reflexivity.
Qed.

(** Runs [AUCMetric::Eval] on numerals: the sort first, then the loop one
    iteration at a time, then the final accumulation. *)
Ltac run_auc :=
  unfold auc_of, AUCMetric.Eval, range;
  cbn [AUCMetric.Init AUCMetric.num_data_ AUCMetric.label_ AUCMetric.weights_
       AUCMetric.sum_weights_ label weights List.length];
  repeat match goal with
  | |- context [Z.to_nat ?k] =>
      let n := eval vm_compute in (Z.to_nat k) in
      change (Z.to_nat k) with n
  end;
  repeat match goal with
  | |- context [Z.of_nat ?n] =>
      let z := eval vm_compute in (Z.of_nat n) in
      change (Z.of_nat n) with z
  end;
  cbn [seq];
  unfold AUCMetric.insertion_sort;
  repeat (cbn [fold_right AUCMetric.insert_by nth]; decide_comparisons);
  cbn [fold_left];
  repeat match goal with
  | |- context [AUCMetric.step_no_weights ?l ?s ?idx ?i
                  (AUCMetric.Build_locals ?cp ?sp ?ac ?cn ?th)] =>
      rewrite (step_no_weights_locals l s idx i cp sp ac cn th);
      cbn [nth]; decide_comparisons; cbn [of_bool]
  end;
  cbn [AUCMetric.cur_pos AUCMetric.sum_pos AUCMetric.accum AUCMetric.cur_neg];
  decide_comparisons; cbn [andb].

Example auc_perfect_ranking : auc_of [0; 1; 0; 1] [1; 4; 2; 3] = [1].
Proof. run_auc. f_equal. field. Qed.

Example auc_reversed_ranking : auc_of [1; 0] [1; 2] = [0].
Proof. run_auc. f_equal. field. Qed.

Example auc_all_tied : auc_of [1; 0] [3; 3] = [1 / 2].
Proof. run_auc. f_equal. field. Qed.

Example auc_one_inversion : auc_of [1; 0; 1; 0] [4; 3; 2; 1] = [3 / 4].
Proof. run_auc. f_equal. field. Qed.

(** ** Covariance components *)

Lemma make_kernel_valid (type : Covariance.KernelType) (rho sigma2_1 : R)
  (coords : list Covariance.coord) :
  sigma2_1 > 0 -> rho > 0 ->
  Covariance.make_kernel type rho sigma2_1 coords
  = Success (Covariance.Kernel type rho sigma2_1 coords).
Proof.
  intros Hs Hr. unfold Covariance.make_kernel.
  assert (H1 : dle rho 0 = false) by (apply dle_false; lra).
  assert (H2 : dle sigma2_1 0 = false) by (apply dle_false; lra).
  rewrite H1, H2. reflexivity.
Qed.

(** C5.  For valid parameters sigma_1^2 > 0 and rho > 0 a kernel component is
    constructed, and for every pair of inputs s_i, s_j it builds the entry
    sigma_1^2 * exp(-d(s_i,s_j)/rho) with the exponential kernel and
    sigma_1^2 * exp(-(d(s_i,s_j)/rho)^2) with the squared-exponential
    kernel. *)
Theorem Kernel_BuildCovariance_entry
  (d : Covariance.coord -> Covariance.coord -> R)
  (rho sigma2_1 : R) (coords : list Covariance.coord) (i j : nat) :
  sigma2_1 > 0 -> rho > 0 ->
  let s_i := nth i coords [] in
  let s_j := nth j coords [] in
  (exists c,
      Covariance.make_kernel Covariance.exponential rho sigma2_1 coords
      = Success c
      /\ entry (Covariance.BuildCovariance d c) i j
         = sigma2_1 * exp (- (d s_i s_j / rho)))
  /\ (exists c,
         Covariance.make_kernel Covariance.squared_exponential rho sigma2_1
                                coords
         = Success c
         /\ entry (Covariance.BuildCovariance d c) i j
            = sigma2_1 * exp (- (d s_i s_j / rho) ^ 2)).
Proof.
  intros Hs Hr s_i s_j. split.
  - exists (Covariance.Kernel Covariance.exponential rho sigma2_1 coords).
    split; [apply make_kernel_valid; assumption | reflexivity].
  - exists (Covariance.Kernel Covariance.squared_exponential rho sigma2_1 coords).
    split; [apply make_kernel_valid; assumption | reflexivity].
Qed.

Lemma Kernel_BuildCovariance_entry_witness :
  exists c,
    Covariance.make_kernel Covariance.exponential (1 / 5) (1 / 16)
                           [[0; 0]; [1; 0]]
    = Success c
    /\ entry (Covariance.BuildCovariance sample_distance c) 0 1
       = 1 / 16 * exp (- (sample_distance [0; 0] [1; 0] / (1 / 5))).
Proof.
  assert (Hs : 1 / 16 > 0) by lra.
  assert (Hr : 1 / 5 > 0) by lra.
  exact (proj1 (Kernel_BuildCovariance_entry sample_distance (1 / 5) (1 / 16)
                  [[0; 0]; [1; 0]] 0 1 Hs Hr)).
Defined.

(** The simulation of the tutorial draws its process with the covariance of
    an exponential kernel component plus a jitter: over the matrix [D] of the
    distances between the locations, [sigma2_1 * Sigma] is the covariance the
    component builds with [sigma2_1 * 1e-10] added on the diagonal. *)
Lemma Tutorial_Sigma_exponential
  (d : Covariance.coord -> Covariance.coord -> R) (D : Matrix)
  (rho sigma2_1 : R) (coords : list Covariance.coord) (S : Matrix) (i j : nat) :
  (forall a b, entry D a b = d (nth a coords []) (nth b coords [])) ->
  Tutorial.Sigma "exponential" D rho (List.length coords) = Some S ->
  sigma2_1 * entry S i j
  = entry (Covariance.Jitter (sigma2_1 * (1 / 10 ^ 10))
             (Covariance.BuildCovariance d
                (Covariance.Kernel Covariance.exponential rho sigma2_1 coords)))
          i j.
Proof.
  intros HD HS. unfold Tutorial.Sigma in HS. simpl in HS.
  injection HS as <-. simpl. rewrite HD.
  replace (- d (nth i coords []) (nth j coords []) / rho)
    with (- (d (nth i coords []) (nth j coords []) / rho))
    by (unfold Rdiv; ring).
  ring.
Qed.

(** C8.  Constructing a kernel component with range rho <= 0, or a grouped
    component whose grouping key has fewer than 2 distinct levels, fails with
    [InvalidParameter]; no component is produced. *)
Theorem invalid_component_rejected
  (type : Covariance.KernelType) (rho sigma2_1 : R)
  (coords : list Covariance.coord)
  (variance : R) (group : list nat) (rand_slope : option (list R)) :
  (rho <= 0 ->
   Covariance.make_kernel type rho sigma2_1 coords = Failure InvalidParameter
   /\ forall c, Covariance.make_kernel type rho sigma2_1 coords <> Success c)
  /\ ((List.length (Covariance.levels group) < 2)%nat ->
      Covariance.make_grouped variance group rand_slope
      = Failure InvalidParameter
      /\ forall c,
           Covariance.make_grouped variance group rand_slope <> Success c).
Proof.
  split.
  - intros Hr.
    assert (H : Covariance.make_kernel type rho sigma2_1 coords
                = Failure InvalidParameter).
    { unfold Covariance.make_kernel.
      assert (H1 : dle rho 0 = true) by (apply dle_true; exact Hr).
      rewrite H1. reflexivity. }
    split; [exact H | intros c Hc; rewrite H in Hc; discriminate].
  - intros Hl.
    assert (H : Covariance.make_grouped variance group rand_slope
                = Failure InvalidParameter).
    { unfold Covariance.make_grouped.
      destruct (dle variance 0); [reflexivity|].
      apply Nat.ltb_lt in Hl. rewrite Hl. reflexivity. }
    split; [exact H | intros c Hc; rewrite H in Hc; discriminate].
Qed.

Lemma invalid_component_rejected_witness :
  Covariance.make_kernel Covariance.exponential 0 1 [[0; 0]; [1; 0]]
  = Failure InvalidParameter
  /\ Covariance.make_grouped 1 [7; 7; 7]%nat None = Failure InvalidParameter.
Proof.
  assert (Hr : 0 <= 0) by lra.
  assert (Hl : (List.length (Covariance.levels [7; 7; 7]%nat) < 2)%nat)
    by (vm_compute; lia).
  pose proof (invalid_component_rejected Covariance.exponential 0 1
                [[0; 0]; [1; 0]] 1 [7; 7; 7]%nat None) as [Hk Hg].
  split; [exact (proj1 (Hk Hr)) | exact (proj1 (Hg Hl))].
Defined.

(** C7.  For a composite model holding a kernel component and a grouped
    component, [Assemble(theta)] is the sum of the component covariances
    Z_1 Cov_1(theta_1) Z_1^t + Z_2 Cov_2(theta_2) Z_2^t + sigma^2 I, each term
    being what the component assembles on its own. *)
Theorem Assemble_additive
  (d : Covariance.coord -> Covariance.coord -> R)
  (type : Covariance.KernelType) (rho0 sigma2_1_0 : R)
  (coords : list Covariance.coord)
  (variance0 : R) (group : list nat) (rand_slope : option (list R))
  (n : nat) (sigma2 sigma2_1 rho variance : R) (i j : nat) :
  let kernel := Covariance.Kernel type rho0 sigma2_1_0 coords in
  let grouped := Covariance.GroupedEffect variance0 group rand_slope in
  let model c := {| Covariance.num_data := n; Covariance.components := c |} in
  entry (Covariance.Assemble d (model [kernel; grouped])
                             [sigma2; sigma2_1; rho; variance]) i j
  = entry (Covariance.component_covariance d
             (Covariance.Kernel type rho sigma2_1 coords)) i j
    + entry (Covariance.component_covariance d
               (Covariance.GroupedEffect variance group rand_slope)) i j
    + sigma2 * delta i j
  /\ entry (Covariance.Assemble d (model [kernel; grouped])
                                [sigma2; sigma2_1; rho; variance]) i j
     = entry (Covariance.Assemble d (model [kernel]) [0; sigma2_1; rho]) i j
       + entry (Covariance.Assemble d (model [grouped]) [0; variance]) i j
       + sigma2 * delta i j.
Proof.
  intros kernel grouped model.
  unfold Covariance.Assemble, Covariance.component_covariance. simpl.
  split; ring.
Qed.

(** ** Prediction *)

Lemma nth_combine_sum (a b : list R) (i : nat) :
  (i < List.length a)%nat -> (i < List.length b)%nat ->
  nth i (map (fun p : R * R => fst p + snd p) (combine a b)) 0
  = nth i a 0 + nth i b 0.
Proof.
  revert b i; induction a as [|x a IH]; intros b i Ha Hb; simpl in Ha.
  - lia.
  - destruct b as [|y b]; simpl in Hb; [lia|].
    destruct i as [|i]; simpl.
    + reflexivity.
    + apply IH; lia.
Qed.

Lemma nth_y_pred (pred : Tutorial.prediction) (i : nat) :
  (i < List.length (Tutorial.fixed_effect pred))%nat ->
  (i < List.length (Tutorial.random_effect_mean pred))%nat ->
  nth i (Tutorial.y_pred pred) 0
  = nth i (Tutorial.fixed_effect pred) 0
    + nth i (Tutorial.random_effect_mean pred) 0.
Proof.
  intros Hf Hm. unfold Tutorial.y_pred. apply nth_combine_sum; assumption.
Qed.

(** C4.  For every prediction query, [Predict] returns the random-effect
    posterior mean, and the posterior covariance exactly when the
    [predictCovariance] flag is set; the prediction output exposes the
    fixed-effect prediction and the random-effect mean separately, and the
    combined point prediction is their sum. *)
Theorem Predict_mean_and_gated_covariance
  (query features : Type) (Sigma_inv : Matrix) (residual : list R)
  (cross cov_new : query -> Matrix) (tree_Predict : features -> list R)
  (X : features) (q : query) (predictCovariance : bool) :
  let re := RandomEffects.Predict query Sigma_inv residual cross cov_new q
              predictCovariance in
  let pred := RandomEffects.predict query Sigma_inv residual cross cov_new
                features tree_Predict X q predictCovariance in
  fst re = RandomEffects.posterior_mean query Sigma_inv residual cross q
  /\ (snd re
      = Some (RandomEffects.posterior_cov query Sigma_inv cross cov_new q)
      <-> predictCovariance = true)
  /\ (snd re = None <-> predictCovariance = false)
  /\ Tutorial.fixed_effect pred = tree_Predict X
  /\ Tutorial.random_effect_mean pred = fst re
  /\ Tutorial.random_effect_cov pred = snd re
  /\ (forall i,
        (i < List.length (Tutorial.fixed_effect pred))%nat ->
        (i < List.length (Tutorial.random_effect_mean pred))%nat ->
        nth i (Tutorial.y_pred pred) 0
        = nth i (tree_Predict X) 0 + nth i (fst re) 0).
Proof.
  intros re pred. subst re pred.
  unfold RandomEffects.predict, RandomEffects.Predict; simpl.
  repeat split; try (destruct predictCovariance; congruence).
  intros i Hf Hm.
  exact (nth_y_pred
           {| Tutorial.fixed_effect := tree_Predict X;
              Tutorial.random_effect_mean :=
                RandomEffects.posterior_mean query Sigma_inv residual cross q;
              Tutorial.random_effect_cov :=
                if predictCovariance
                then Some (RandomEffects.posterior_cov query Sigma_inv cross
                             cov_new q)
                else None |} i Hf Hm).
Qed.

Lemma Predict_mean_and_gated_covariance_witness :
  let pred := RandomEffects.predict nat (scaled_identity 1 1) [2]
                (fun _ => scaled_identity 1 (1 / 2))
                (fun _ => scaled_identity 1 1)
                nat (fun _ => [3]) 0%nat 0%nat true in
  (0 < List.length (Tutorial.fixed_effect pred))%nat
  /\ (0 < List.length (Tutorial.random_effect_mean pred))%nat
  /\ nth 0 (Tutorial.y_pred pred) 0
     = nth 0 [3] 0
       + nth 0 (fst (RandomEffects.Predict nat (scaled_identity 1 1) [2]
                       (fun _ => scaled_identity 1 (1 / 2))
                       (fun _ => scaled_identity 1 1) 0%nat true)) 0.
Proof.
  intros pred.
  assert (Hf : (0 < List.length (Tutorial.fixed_effect pred))%nat)
    by (simpl; lia).
  assert (Hm : (0 < List.length (Tutorial.random_effect_mean pred))%nat)
    by (simpl; lia).
  split; [exact Hf|]. split; [exact Hm|].
  pose proof (Predict_mean_and_gated_covariance nat nat (scaled_identity 1 1)
                [2] (fun _ => scaled_identity 1 (1 / 2))
                (fun _ => scaled_identity 1 1) (fun _ => [3]) 0%nat 0%nat true)
    as H.
  exact (proj2 (proj2 (proj2 (proj2 (proj2 (proj2 H))))) 0%nat Hf Hm).
Defined.

(** ** The covariance optimizer *)

Section OptimizerFacts.

Variable cfg : Optimizer.Config.
Variable LogLikelihood : list R -> option R.
Variable Gradient : list R -> list R.
Variable FisherDirection : list R -> list R.


Lemma last_valid_app (cur : list R * R) (l1 l2 : list (list R * option R)) :
  Optimizer.last_valid cfg cur (l1 ++ l2)
  = Optimizer.last_valid cfg (Optimizer.last_valid cfg cur l1) l2.
Proof.
  revert cur; induction l1 as [|[th [ll|]] l1 IH]; intros cur; simpl.
  - reflexivity.
  - destruct (dlt ll (snd cur - Optimizer.tolerance cfg)); apply IH.
  - apply IH.
Qed.

(** What every state reached from a valid start satisfies: the vector held
    has a log-likelihood, the recorded one, and it is the last valid vector
    of the evaluations made so far. *)
Definition holds_last_valid (theta0 : list R) (ll0 : R) (s : Optimizer.State)
  : Prop :=
  LogLikelihood (Optimizer.theta s) = Some (Optimizer.loglik s)
  /\ (Optimizer.theta s, Optimizer.loglik s)
     = Optimizer.last_valid cfg (theta0, ll0) (rev (Optimizer.evaluations s)).

Lemma init_holds (theta0 : list R) (ll0 : R) :
  LogLikelihood theta0 = Some ll0 ->
  holds_last_valid theta0 ll0 (Optimizer.init cfg LogLikelihood theta0)
  /\ Optimizer.status (Optimizer.init cfg LogLikelihood theta0)
     = Optimizer.Iterate.
Proof.
  intros H. unfold Optimizer.init, holds_last_valid. rewrite H. simpl.
  repeat split. exact H.
Qed.

Lemma iterate_holds (theta0 : list R) (ll0 : R) (s : Optimizer.State) :
  holds_last_valid theta0 ll0 s ->
  holds_last_valid theta0 ll0
    (Optimizer.iterate cfg LogLikelihood Gradient FisherDirection s).
Proof.
  intros [Hll Hlast]. unfold Optimizer.iterate, holds_last_valid.
  destruct (Optimizer.max_iter cfg <=? Optimizer.iterations s)%nat.
  - simpl. split; assumption.
  - set (c := Optimizer.candidate cfg Gradient FisherDirection s).
    destruct (LogLikelihood c) as [ll|] eqn:Hc.
    + destruct (dlt ll (Optimizer.loglik s - Optimizer.tolerance cfg)) eqn:Hd;
        simpl; (split; [try assumption|]).
      * rewrite last_valid_app, <- Hlast. simpl.
        rewrite Hd. reflexivity.
      * rewrite last_valid_app, <- Hlast. simpl.
        rewrite Hd. reflexivity.
    + destruct (Optimizer.max_failures cfg <=? S (Optimizer.failures s))%nat;
        simpl; (split; [assumption|]);
        rewrite last_valid_app, <- Hlast; reflexivity.
Qed.

Lemma run_holds (theta0 : list R) (ll0 : R) (fuel : nat) (s : Optimizer.State) :
  holds_last_valid theta0 ll0 s ->
  holds_last_valid theta0 ll0
    (Optimizer.run cfg LogLikelihood Gradient FisherDirection fuel s).
Proof.
  revert s; induction fuel as [|fuel IH]; intros s Hs; simpl.
  - exact Hs.
  - destruct (Optimizer.status s); try exact Hs.
    apply IH. apply iterate_holds. exact Hs.
Qed.

(** A transition into [Diverged] always comes with a warning. *)
Lemma iterate_diverged_warns (s : Optimizer.State) :
  Optimizer.status
    (Optimizer.iterate cfg LogLikelihood Gradient FisherDirection s)
  = Optimizer.Diverged ->
  Optimizer.warnings
    (Optimizer.iterate cfg LogLikelihood Gradient FisherDirection s)
  <> [].
Proof.
  unfold Optimizer.iterate.
  destruct (Optimizer.max_iter cfg <=? Optimizer.iterations s)%nat;
    [simpl; discriminate|].
  destruct (LogLikelihood
              (Optimizer.candidate cfg Gradient FisherDirection s)) as [ll|].
  - destruct (dlt ll (Optimizer.loglik s - Optimizer.tolerance cfg)); simpl.
    + discriminate.
    + destruct (dlt _ _ || dlt _ _); discriminate.
  - destruct (Optimizer.max_failures cfg <=? S (Optimizer.failures s))%nat;
      simpl; discriminate.
Qed.

Lemma run_diverged_warns (fuel : nat) (s : Optimizer.State) :
  (Optimizer.status s = Optimizer.Diverged -> Optimizer.warnings s <> []) ->
  Optimizer.status
    (Optimizer.run cfg LogLikelihood Gradient FisherDirection fuel s)
  = Optimizer.Diverged ->
  Optimizer.warnings
    (Optimizer.run cfg LogLikelihood Gradient FisherDirection fuel s)
  <> [].
Proof.
  revert s; induction fuel as [|fuel IH]; intros s Hs; simpl.
  - exact Hs.
  - destruct (Optimizer.status s) eqn:Hst;
      try (intros Hd; apply Hs; congruence).
    apply IH. apply iterate_diverged_warns.
Qed.

(** Every transition out of [Iterate] either leaves it or counts one more
    iteration, and the bound on the iterations forces [MaxIterReached]. *)
Lemma iterate_progress (s : Optimizer.State) :
  let s' := Optimizer.iterate cfg LogLikelihood Gradient FisherDirection s in
  Optimizer.status s' <> Optimizer.Init
  /\ (Optimizer.status s' = Optimizer.Iterate ->
      (Optimizer.iterations s < Optimizer.max_iter cfg)%nat
      /\ Optimizer.iterations s' = S (Optimizer.iterations s)).
Proof.
  unfold Optimizer.iterate.
  destruct (Optimizer.max_iter cfg <=? Optimizer.iterations s)%nat eqn:Hm.
  - simpl. split; discriminate.
  - apply Nat.leb_gt in Hm.
    destruct (LogLikelihood
                (Optimizer.candidate cfg Gradient FisherDirection s)) as [ll|].
    + destruct (dlt ll (Optimizer.loglik s - Optimizer.tolerance cfg)); simpl.
      * split; discriminate.
      * split; [destruct (dlt _ _ || dlt _ _); discriminate|].
        intros _. split; [exact Hm | reflexivity].
    + destruct (Optimizer.max_failures cfg <=? S (Optimizer.failures s))%nat;
        simpl.
      * split; discriminate.
      * split; [discriminate|]. intros _. split; [exact Hm | reflexivity].
Qed.

Lemma run_halts (fuel : nat) (s : Optimizer.State) :
  Optimizer.status s <> Optimizer.Init ->
  (Optimizer.max_iter cfg - Optimizer.iterations s < fuel)%nat ->
  let s' := Optimizer.run cfg LogLikelihood Gradient FisherDirection fuel s in
  Optimizer.status s' = Optimizer.Converged
  \/ Optimizer.status s' = Optimizer.MaxIterReached
  \/ Optimizer.status s' = Optimizer.Diverged.
Proof.
  revert s; induction fuel as [|fuel IH]; intros s Hinit Hfuel; [lia|].
  simpl. destruct (Optimizer.status s) eqn:Hst; try tauto.
  pose proof (iterate_progress s) as [Hi Hprog]. simpl in Hi, Hprog.
  destruct (Optimizer.status
              (Optimizer.iterate cfg LogLikelihood Gradient FisherDirection s))
    eqn:Hst'.
  - congruence.
  - destruct (Hprog eq_refl) as [Hlt Hit].
    apply IH; [congruence | lia].
  - destruct fuel; simpl; rewrite ?Hst'; tauto.
  - destruct fuel; simpl; rewrite ?Hst'; tauto.
  - destruct fuel; simpl; rewrite ?Hst'; tauto.
Qed.

(** An optimization call halts: it ends converged, at the iteration bound, or
    diverged. *)
Lemma optimize_halts (theta0 : list R) :
  let s := Optimizer.optimize cfg LogLikelihood Gradient FisherDirection theta0 in
  Optimizer.status s = Optimizer.Converged
  \/ Optimizer.status s = Optimizer.MaxIterReached
  \/ Optimizer.status s = Optimizer.Diverged.
Proof.
  unfold Optimizer.optimize. apply run_halts.
  - unfold Optimizer.init. destruct (LogLikelihood theta0); simpl; discriminate.
  - unfold Optimizer.init. destruct (LogLikelihood theta0); simpl; lia.
Qed.

(** C6.  When an optimization started at a valid theta ends in the
    [Diverged] state, the call returns with a warning, and the
    hyperparameter vector it holds is the last valid one of the run: its
    likelihood evaluation succeeds, with the recorded value, and it is the
    last evaluated vector (or the start) that neither failed to factorize nor
    lost likelihood beyond the tolerance. *)
Theorem Diverged_retains_last_valid_theta (theta0 : list R) (ll0 : R) :
  LogLikelihood theta0 = Some ll0 ->
  let s := Optimizer.optimize cfg LogLikelihood Gradient FisherDirection theta0 in
  Optimizer.status s = Optimizer.Diverged ->
  Optimizer.warnings s <> []
  /\ LogLikelihood (Optimizer.theta s) = Some (Optimizer.loglik s)
  /\ (Optimizer.theta s, Optimizer.loglik s)
     = Optimizer.last_valid cfg (theta0, ll0) (rev (Optimizer.evaluations s)).
Proof.
  intros H0 s Hdiv. subst s. unfold Optimizer.optimize in *.
  destruct (init_holds theta0 ll0 H0) as [Hinit Hstat].
  split.
  - apply run_diverged_warns; [|exact Hdiv].
    rewrite Hstat. discriminate.
  - apply run_holds. exact Hinit.
Qed.

End OptimizerFacts.

Lemma Diverged_retains_last_valid_theta_witness :
  let s := Optimizer.optimize sample_config sample_LogLikelihood
             sample_Gradient sample_Gradient [0] in
  sample_LogLikelihood [0] = Some 0
  /\ Optimizer.status s = Optimizer.Diverged
  /\ Optimizer.warnings s <> []
  /\ sample_LogLikelihood (Optimizer.theta s) = Some (Optimizer.loglik s)
  /\ (Optimizer.theta s, Optimizer.loglik s)
     = Optimizer.last_valid sample_config ([0], 0)
         (rev (Optimizer.evaluations s)).
Proof.
  intros s.
  assert (H1 : dle 0 0 = true) by (apply dle_true; lra).
  assert (H2 : dle (0 + 1 * 1) 0 = false) by (apply dle_false; lra).
  assert (H0 : sample_LogLikelihood [0] = Some 0)
    by (unfold sample_LogLikelihood; rewrite H1; reflexivity).
  assert (Hdiv : Optimizer.status s = Optimizer.Diverged).
  { subst s. unfold Optimizer.optimize, Optimizer.init. rewrite H0.
    cbn -[dle Rplus Rmult]. rewrite H2. reflexivity. }
  split; [exact H0|]. split; [exact Hdiv|].
  exact (Diverged_retains_last_valid_theta sample_config sample_LogLikelihood
           sample_Gradient sample_Gradient [0] 0 H0 Hdiv).
Defined.

(** * Further properties of the metrics *)

(** ** BinaryMetric::Eval, branch by branch *)

Lemma dsum_times_one (f : nat -> R) (l : list nat) :
  dsum (map (fun i => f i * 1) l) = dsum (map f l).
Proof.
  f_equal. apply map_ext. intros i. apply Rmult_1_r.
Qed.

Lemma Eval_no_objective {calc : PointWiseLossCalculator} (m : BinaryMetric.t)
  (score : list double) :
  BinaryMetric.Eval m score None
  = ([], Returned
           [dsum (map (fun i =>
                         LossOnPoint (nth i (BinaryMetric.label_ m) 0)
                                     (nth i score 0)
                         * weight_of (BinaryMetric.weights_ m) i)
                      (range (BinaryMetric.num_data_ m)))
            / BinaryMetric.sum_weights_ m]).
Proof.
  unfold BinaryMetric.Eval.
  destruct (BinaryMetric.weights_ m) as [w|]; simpl.
  - rewrite (for_each_pure
               (fun i s => s + LossOnPoint (nth i (BinaryMetric.label_ m) 0)
                                 (nth i score 0) * nth i w 0)).
    simpl.
    rewrite (fold_left_sum
               (fun i => LossOnPoint (nth i (BinaryMetric.label_ m) 0)
                                     (nth i score 0) * nth i w 0)).
    rewrite Rplus_0_l. reflexivity.
  - rewrite (for_each_pure
               (fun i s => s + LossOnPoint (nth i (BinaryMetric.label_ m) 0)
                                 (nth i score 0))).
    simpl.
    rewrite (fold_left_sum
               (fun i => LossOnPoint (nth i (BinaryMetric.label_ m) 0)
                                     (nth i score 0))).
    rewrite Rplus_0_l.
    rewrite (dsum_times_one
               (fun i => LossOnPoint (nth i (BinaryMetric.label_ m) 0)
                                     (nth i score 0))).
    reflexivity.
Qed.

Lemma Eval_converted {calc : PointWiseLossCalculator} (m : BinaryMetric.t)
  (score : list double) (obj : ObjectiveFunction) :
  BinaryMetric.weights_ m = None ->
  HasGPModel obj && UseGPModelForValidation obj = false ->
  BinaryMetric.Eval m score (Some obj)
  = (map (fun i => CallConvertOutput (nth i score 0))
         (range (BinaryMetric.num_data_ m)),
     Returned
       [dsum (map (fun i =>
                     LossOnPoint (nth i (BinaryMetric.label_ m) 0)
                                 (ConvertOutput obj (nth i score 0)))
                  (range (BinaryMetric.num_data_ m)))
        / BinaryMetric.sum_weights_ m]).
Proof.
  intros Hw Hgp. unfold BinaryMetric.Eval. rewrite Hw, Hgp.
  rewrite (for_each_ConvertOutput obj (fun i => nth i score 0)
             (fun i s prob =>
                s + LossOnPoint (nth i (BinaryMetric.label_ m) 0) prob)).
  simpl. rewrite app_nil_r.
  rewrite (fold_left_sum
             (fun i => LossOnPoint (nth i (BinaryMetric.label_ m) 0)
                                   (ConvertOutput obj (nth i score 0)))).
  rewrite Rplus_0_l. reflexivity.
Qed.

(** Whenever [Eval] does not stop, it returns one number: the sum of the
    pointwise losses times the sample weights, over the sum of the weights. *)
Lemma Eval_value {calc : PointWiseLossCalculator} (m : BinaryMetric.t)
  (score : list double) (objective : option ObjectiveFunction) :
  stops_in_fatal m objective = false ->
  result (BinaryMetric.Eval m score objective)
  = Returned
      [dsum (map (fun i =>
                    LossOnPoint (nth i (BinaryMetric.label_ m) 0)
                                (prob_of m score objective i)
                    * weight_of (BinaryMetric.weights_ m) i)
                 (range (BinaryMetric.num_data_ m)))
       / BinaryMetric.sum_weights_ m].
Proof.
  unfold stops_in_fatal, prob_of, uses_gp_validation.
  destruct objective as [obj|].
  - destruct (BinaryMetric.weights_ m) as [w|] eqn:Hw.
    + intros _. rewrite (Eval_weighted m score w obj Hw). reflexivity.
    + destruct (HasGPModel obj && UseGPModelForValidation obj) eqn:Hgp.
      * simpl. intros Htrain. apply andb_prop in Hgp. destruct Hgp as [H1 H2].
        rewrite (Eval_validation m score obj Hw H1 H2 Htrain).
        unfold result; simpl.
        rewrite (dsum_times_one
                   (fun i => LossOnPoint (nth i (BinaryMetric.label_ m) 0)
                               (nth i (Predict (GetGPModel obj)
                                         (BinaryMetric.num_data_ m) score) 0))).
        reflexivity.
      * intros _. rewrite (Eval_converted m score obj Hw Hgp).
        unfold result; simpl.
        rewrite (dsum_times_one
                   (fun i => LossOnPoint (nth i (BinaryMetric.label_ m) 0)
                                         (ConvertOutput obj (nth i score 0)))).
        reflexivity.
  - intros _. rewrite Eval_no_objective. reflexivity.
Qed.

Lemma Eval_fatal {calc : PointWiseLossCalculator} (m : BinaryMetric.t)
  (score : list double) (objective : option ObjectiveFunction) :
  stops_in_fatal m objective = true ->
  BinaryMetric.Eval m score objective
  = ([], FatalError BinaryMetric.fatal_message).
Proof.
  unfold stops_in_fatal, uses_gp_validation.
  destruct objective as [obj|]; [|discriminate].
  destruct (BinaryMetric.weights_ m) eqn:Hw; [discriminate|].
  intros H. apply andb_prop in H. destruct H as [Hgp Htrain].
  unfold BinaryMetric.Eval. rewrite Hw, Hgp, Htrain. reflexivity.
Qed.

(** X1.  [BinaryMetric::Eval] stops in [Log::Fatal] in exactly one
    configuration: an objective whose GP model is used for validation, no
    sample weights, and a metric of the training data.  It then has called
    nothing; in every other configuration it returns one number. *)
Theorem Eval_fatal_exactly_for_training_gp_validation
  (calc : PointWiseLossCalculator) (m : BinaryMetric.t)
  (score : list double) (objective : option ObjectiveFunction) :
  ((exists msg, result (BinaryMetric.Eval m score objective) = FatalError msg)
   <-> (exists obj,
          objective = Some obj
          /\ BinaryMetric.weights_ m = None
          /\ HasGPModel obj = true
          /\ UseGPModelForValidation obj = true
          /\ BinaryMetric.metric_for_train_data_ m = true))
  /\ ((exists msg, result (BinaryMetric.Eval m score objective) = FatalError msg)
      -> BinaryMetric.Eval m score objective
         = ([], FatalError BinaryMetric.fatal_message))
  /\ ((forall msg, result (BinaryMetric.Eval m score objective) <> FatalError msg)
      -> exists loss,
           result (BinaryMetric.Eval m score objective) = Returned [loss]).
Proof.
  destruct (stops_in_fatal m objective) eqn:Hstop.
  - pose proof (Eval_fatal m score objective Hstop) as HE.
    split; [|split].
    + split; [intros _|intros _; rewrite HE; eexists; reflexivity].
      unfold stops_in_fatal, uses_gp_validation in Hstop.
      destruct objective as [obj|]; [|discriminate].
      destruct (BinaryMetric.weights_ m); [discriminate|].
      apply andb_prop in Hstop. destruct Hstop as [Hgp Htrain].
      apply andb_prop in Hgp. destruct Hgp as [H1 H2].
      exists obj. repeat split; assumption.
    + intros _. exact HE.
    + intros Hno. exfalso. apply (Hno BinaryMetric.fatal_message).
      rewrite HE. reflexivity.
  - pose proof (Eval_value m score objective Hstop) as HV.
    split; [|split].
    + split.
      * intros [msg Hmsg]. rewrite HV in Hmsg. discriminate.
      * intros [obj [Ho [Hw [H1 [H2 Ht]]]]]. exfalso.
        unfold stops_in_fatal, uses_gp_validation in Hstop.
        rewrite Ho, Hw, H1, H2, Ht in Hstop. discriminate.
    + intros [msg Hmsg]. rewrite HV in Hmsg. discriminate.
    + intros _. eexists. exact HV.
Qed.

Lemma Eval_fatal_exactly_for_training_gp_validation_witness :
  BinaryMetric.Eval (calc := BinaryErrorMetric.calculator)
    (BinaryMetric.Init (calc := BinaryErrorMetric.calculator)
       (fresh_metric true) sample_metadata 2%Z)
    [0; 0] (Some sample_objective)
  = ([], FatalError BinaryMetric.fatal_message).
Proof.
  apply (proj1 (proj2 (Eval_fatal_exactly_for_training_gp_validation
                         BinaryErrorMetric.calculator
                         (BinaryMetric.Init (calc := BinaryErrorMetric.calculator)
                            (fresh_metric true) sample_metadata 2%Z)
                         [0; 0] (Some sample_objective)))).
  exists BinaryMetric.fatal_message. reflexivity.
Defined.


(** X3.  An objective whose [ConvertOutput] leaves the scores as they are
    gives the same metric as no objective, unless its GP model is used for
    validation. *)
Theorem Eval_identity_objective_same_as_none
  (calc : PointWiseLossCalculator) (m : BinaryMetric.t)
  (score : list double) (obj : ObjectiveFunction) :
  uses_gp_validation m (Some obj) = false ->
  (forall i, In i (range (BinaryMetric.num_data_ m)) ->
             ConvertOutput obj (nth i score 0) = nth i score 0) ->
  result (BinaryMetric.Eval m score (Some obj))
  = result (BinaryMetric.Eval m score None).
Proof.
  intros Hgp Hid.
  assert (Hstop : stops_in_fatal m (Some obj) = false)
    by (unfold stops_in_fatal; rewrite Hgp; reflexivity).
  rewrite (Eval_value m score (Some obj) Hstop).
  rewrite (Eval_value m score None eq_refl).
  do 4 f_equal. apply map_ext_in. intros i Hi.
  unfold prob_of. rewrite Hgp, (Hid i Hi). reflexivity.
Qed.

Lemma Eval_identity_objective_same_as_none_witness :
  result (BinaryMetric.Eval (calc := BinaryErrorMetric.calculator)
            (BinaryMetric.Init (calc := BinaryErrorMetric.calculator)
               (fresh_metric true) sample_weighted_metadata 2%Z)
            [0; 0] (Some sample_objective))
  = result (BinaryMetric.Eval (calc := BinaryErrorMetric.calculator)
              (BinaryMetric.Init (calc := BinaryErrorMetric.calculator)
                 (fresh_metric true) sample_weighted_metadata 2%Z)
              [0; 0] None).
Proof.
  apply (Eval_identity_objective_same_as_none BinaryErrorMetric.calculator
           (BinaryMetric.Init (calc := BinaryErrorMetric.calculator)
              (fresh_metric true) sample_weighted_metadata 2%Z)
           [0; 0] sample_objective eq_refl).
  intros i _. reflexivity.
Defined.

(** ** Weights *)

Lemma dsum_ones (l : list nat) : dsum (map (fun _ => 1) l) = INR (List.length l).
Proof.
  induction l as [|i l IH].
  - reflexivity.
  - cbn [map dsum fold_right List.length]. fold (dsum (map (fun _ : nat => 1) l)).
    rewrite IH, S_INR. lra.
Qed.

Lemma Init_sum_weights {calc : PointWiseLossCalculator} (m0 : BinaryMetric.t)
  (metadata : Metadata) (num_data : data_size_t) :
  (weights metadata = None -> (0 <= num_data)%Z) ->
  BinaryMetric.sum_weights_ (BinaryMetric.Init m0 metadata num_data)
  = dsum (map (weight_of (weights metadata)) (range num_data)).
Proof.
  intros Hn. cbn [BinaryMetric.Init BinaryMetric.sum_weights_].
  destruct (weights metadata) as [w|].
  - rewrite (fold_left_sum (fun i => nth i w 0)). rewrite Rplus_0_l. reflexivity.
  - cbn [weight_of]. rewrite dsum_ones, range_length.
    rewrite INR_IZR_INZ, Z2Nat.id by (apply Hn; reflexivity). reflexivity.
Qed.


(** X4.  Sample weights that are all 1 give the same metric as no weights,
    unless the GP model is used for validation (which only the unweighted
    metric does). *)
Theorem Eval_unit_weights_same_as_unweighted
  (calc : PointWiseLossCalculator) (m0 : BinaryMetric.t)
  (labels w : list label_t) (num_data : data_size_t)
  (score : list double) (objective : option ObjectiveFunction) :
  (0 <= num_data)%Z ->
  (forall i, In i (range num_data) -> nth i w 0 = 1) ->
  uses_gp_validation
    (BinaryMetric.Init m0 {| label := labels; weights := None |} num_data)
    objective = false ->
  result (BinaryMetric.Eval
            (BinaryMetric.Init m0 {| label := labels; weights := Some w |}
                               num_data)
            score objective)
  = result (BinaryMetric.Eval
              (BinaryMetric.Init m0 {| label := labels; weights := None |}
                                 num_data)
              score objective).
Proof.
  intros Hn Hone Hgp.
  set (mw := BinaryMetric.Init m0 {| label := labels; weights := Some w |}
                               num_data).
  set (mu := BinaryMetric.Init m0 {| label := labels; weights := None |}
                               num_data) in *.
  assert (Hgpw : uses_gp_validation mw objective = false)
    by (destruct objective; reflexivity).
  rewrite (Eval_value mw score objective)
    by (unfold stops_in_fatal; rewrite Hgpw; reflexivity).
  rewrite (Eval_value mu score objective)
    by (unfold stops_in_fatal; rewrite Hgp; reflexivity).
  subst mw mu.
  rewrite !Init_sum_weights by (intros; (exact Hn || discriminate)).
  cbn [BinaryMetric.Init BinaryMetric.label_ BinaryMetric.weights_
       BinaryMetric.num_data_ label weights].
  match goal with
  | |- Returned [dsum (map ?A ?l) / dsum (map ?C ?l)]
       = Returned [dsum (map ?B ?l) / dsum (map ?D ?l)] =>
      assert (HAB : map A l = map B l);
      [|assert (HCD : map C l = map D l); [|rewrite HAB, HCD; reflexivity]]
  end.
  - apply map_ext_in. intros i Hi. cbn [weight_of]. rewrite (Hone i Hi).
    unfold prob_of. rewrite Hgpw, Hgp. reflexivity.
  - apply map_ext_in. intros i Hi. cbn [weight_of]. apply Hone. exact Hi.
Qed.

Lemma Eval_unit_weights_same_as_unweighted_witness :
  result (BinaryMetric.Eval (calc := BinaryErrorMetric.calculator)
            (BinaryMetric.Init (calc := BinaryErrorMetric.calculator)
               (fresh_metric false) {| label := [1; 0]; weights := Some [1; 1] |}
               2%Z)
            [1 / 4; 3 / 4] None)
  = result (BinaryMetric.Eval (calc := BinaryErrorMetric.calculator)
              (BinaryMetric.Init (calc := BinaryErrorMetric.calculator)
                 (fresh_metric false) {| label := [1; 0]; weights := None |}
                 2%Z)
              [1 / 4; 3 / 4] None).
Proof.
  apply (Eval_unit_weights_same_as_unweighted BinaryErrorMetric.calculator
           (fresh_metric false) [1; 0] [1; 1] 2%Z [1 / 4; 3 / 4] None).
  - lia.
  - intros i Hi. apply in_range in Hi. change (Z.to_nat 2) with 2%nat in Hi.
    destruct i as [|[|i]]; [reflexivity | reflexivity | lia].
  - reflexivity.
Defined.

(** ** The metric as a weighted mean *)








(** ** The pointwise losses *)

(** X7.  The log loss treats the two classes symmetrically: the loss of
    probability [prob] against a non-positive label is the loss of
    [1 - prob] against a positive label. *)
Theorem BinaryLogloss_symmetric (kEpsilon : double) (negative positive : label_t)
  (prob : double) :
  negative <= 0 -> positive > 0 ->
  BinaryLoglossMetric.LossOnPoint kEpsilon negative prob
  = BinaryLoglossMetric.LossOnPoint kEpsilon positive (1 - prob).
Proof.
  intros Hn Hp. unfold BinaryLoglossMetric.LossOnPoint.
  assert (H1 : dle negative 0 = true) by (apply dle_true; exact Hn).
  assert (H2 : dle positive 0 = false) by (apply dle_false; exact Hp).
  rewrite H1, H2. reflexivity.
Qed.

Lemma BinaryLogloss_symmetric_witness :
  BinaryLoglossMetric.LossOnPoint (1 / 10 ^ 15) 0 (1 / 4)
  = BinaryLoglossMetric.LossOnPoint (1 / 10 ^ 15) 1 (1 - 1 / 4).
Proof.
  apply (BinaryLogloss_symmetric (1 / 10 ^ 15) 0 1 (1 / 4)); lra.
Defined.

Lemma BinaryLogloss_positive_antitone (kEpsilon : double) (label : label_t)
  (p q : double) :
  0 < kEpsilon -> label > 0 -> p <= q ->
  BinaryLoglossMetric.LossOnPoint kEpsilon label q
  <= BinaryLoglossMetric.LossOnPoint kEpsilon label p.
Proof.
  intros Hk Hl Hpq. unfold BinaryLoglossMetric.LossOnPoint.
  assert (H : dle label 0 = false) by (apply dle_false; exact Hl).
  rewrite H.
  destruct (dgt p kEpsilon) eqn:Hp, (dgt q kEpsilon) eqn:Hq.
  - apply dgt_true in Hp. assert (0 < p) by lra.
    pose proof (ln_le_compat p q ltac:(assumption) Hpq). lra.
  - apply dgt_true in Hp. apply dgt_false in Hq. lra.
  - apply dgt_true in Hq.
    pose proof (ln_le_compat kEpsilon q Hk ltac:(lra)). lra.
  - lra.
Qed.

(** X8.  The log loss is monotone in the predicted probability: against a
    positive label it does not increase when the probability grows, against a
    non-positive label it does not decrease. *)
Theorem BinaryLogloss_monotone (kEpsilon : double) (label : label_t)
  (p q : double) :
  0 < kEpsilon -> p <= q ->
  (label > 0 ->
   BinaryLoglossMetric.LossOnPoint kEpsilon label q
   <= BinaryLoglossMetric.LossOnPoint kEpsilon label p)
  /\ (label <= 0 ->
      BinaryLoglossMetric.LossOnPoint kEpsilon label p
      <= BinaryLoglossMetric.LossOnPoint kEpsilon label q).
Proof.
  intros Hk Hpq. split.
  - intros Hl. apply BinaryLogloss_positive_antitone; assumption.
  - intros Hl.
    assert (H1 : (1 : R) > 0) by lra.
    rewrite (BinaryLogloss_symmetric kEpsilon label 1 p Hl H1).
    rewrite (BinaryLogloss_symmetric kEpsilon label 1 q Hl H1).
    apply BinaryLogloss_positive_antitone; lra.
Qed.

Lemma BinaryLogloss_monotone_witness :
  BinaryLoglossMetric.LossOnPoint (1 / 10 ^ 15) 1 (3 / 4)
  <= BinaryLoglossMetric.LossOnPoint (1 / 10 ^ 15) 1 (1 / 4).
Proof.
  assert (Hk : 0 < 1 / 10 ^ 15) by lra.
  assert (Hpq : 1 / 4 <= 3 / 4) by lra.
  assert (Hl : (1 : R) > 0) by lra.
  exact (proj1 (BinaryLogloss_monotone (1 / 10 ^ 15) 1 (1 / 4) (3 / 4) Hk Hpq)
           Hl).
Defined.

Lemma class_of_positive (label : label_t) :
  label > 0 -> class_of label = 1.
Proof.
  intros H. unfold class_of.
  assert (Hg : dgt label 0 = true) by (apply dgt_true; exact H).
  rewrite Hg. reflexivity.
Qed.

Lemma class_of_non_positive (label : label_t) :
  label <= 0 -> class_of label = 0.
Proof.
  intros H. unfold class_of.
  assert (Hg : dgt label 0 = false) by (apply dgt_false; exact H).
  rewrite Hg. reflexivity.
Qed.

(** X9.  Both pointwise losses read the label only through its sign: a label
    gives the same loss as 1 when it is positive and as 0 when it is not. *)
Theorem LossOnPoint_depends_on_label_sign (kEpsilon : double)
  (label : label_t) (prob : double) :
  BinaryLoglossMetric.LossOnPoint kEpsilon label prob
  = BinaryLoglossMetric.LossOnPoint kEpsilon (class_of label) prob
  /\ BinaryErrorMetric.LossOnPoint label prob
     = BinaryErrorMetric.LossOnPoint (class_of label) prob.
Proof.
  destruct (Rle_dec label 0) as [Hl | Hl].
  - rewrite (class_of_non_positive label Hl).
    unfold BinaryLoglossMetric.LossOnPoint, BinaryErrorMetric.LossOnPoint.
    assert (H1 : dle label 0 = true) by (apply dle_true; exact Hl).
    assert (H2 : dle 0 0 = true) by (apply dle_true; lra).
    assert (H3 : dgt label 0 = false) by (apply dgt_false; exact Hl).
    assert (H4 : dgt 0 0 = false) by (apply dgt_false; lra).
    rewrite H1, H2, H3, H4. split; reflexivity.
  - assert (Hp : label > 0) by lra.
    rewrite (class_of_positive label Hp).
    unfold BinaryLoglossMetric.LossOnPoint, BinaryErrorMetric.LossOnPoint.
    assert (H1 : dle label 0 = false) by (apply dle_false; exact Hp).
    assert (H2 : dle 1 0 = false) by (apply dle_false; lra).
    assert (H3 : dgt label 0 = true) by (apply dgt_true; exact Hp).
    assert (H4 : dgt 1 0 = true) by (apply dgt_true; lra).
    rewrite H1, H2, H3, H4. split; reflexivity.
Qed.

(** X10.  The error loss is 0 exactly when the prediction agrees with the
    label, a probability above 1/2 predicting the positive class and a
    probability of 1/2 or less the other one; it is 1 otherwise. *)
Theorem BinaryError_zero_iff_agreement (label : label_t) (prob : double) :
  (BinaryErrorMetric.LossOnPoint label prob = 0
   <-> (label > 0 <-> prob > 1 / 2))
  /\ (BinaryErrorMetric.LossOnPoint label prob = 1
      <-> ~ (label > 0 <-> prob > 1 / 2)).
Proof.
  unfold BinaryErrorMetric.LossOnPoint.
  destruct (dle prob (1 / 2)) eqn:Hp;
    [apply dle_true in Hp | apply dle_false in Hp];
    destruct (dgt label 0) eqn:Hg;
    [apply dgt_true in Hg | apply dgt_false in Hg
     | apply dgt_true in Hg | apply dgt_false in Hg];
    destruct (dle label 0) eqn:Hl;
    [apply dle_true in Hl | apply dle_false in Hl
     | apply dle_true in Hl | apply dle_false in Hl
     | apply dle_true in Hl | apply dle_false in Hl
     | apply dle_true in Hl | apply dle_false in Hl];
    simpl; try lra;
    (split; split; intros H; try lra; try (split; intros; lra);
     try (exfalso; lra); try (intros [H1 H2]; lra);
     try (destruct H as [H1 H2]; lra)).
Qed.

Lemma BinaryError_zero_iff_agreement_witness :
  BinaryErrorMetric.LossOnPoint 1 (3 / 4) = 0.
Proof.
  apply (proj2 (proj1 (BinaryError_zero_iff_agreement 1 (3 / 4)))).
  split; intros _; lra.
Defined.

(** ** AUCMetric::Eval as a ratio *)



Lemma class_indicators (label : label_t) :
  0 <= of_bool (dle label 0) /\ 0 <= of_bool (dgt label 0)
  /\ of_bool (dle label 0) + of_bool (dgt label 0) = 1.
Proof.
  destruct (Rle_dec label 0) as [H | H].
  - assert (H1 : dle label 0 = true) by (apply dle_true; exact H).
    assert (H2 : dgt label 0 = false) by (apply dgt_false; exact H).
    rewrite H1, H2. simpl. lra.
  - assert (H1 : dle label 0 = false) by (apply dle_false; lra).
    assert (H2 : dgt label 0 = true) by (apply dgt_true; lra).
    rewrite H1, H2. simpl. lra.
Qed.






Lemma map_nth_seq (l : list nat) :
  map (fun i => nth i l 0%nat) (seq 0 (List.length l)) = l.
Proof.
  induction l as [|a l IH].
  - reflexivity.
  - cbn [List.length seq map nth]. f_equal.
    rewrite <- seq_shift, map_map. exact IH.
Qed.





Lemma fold_left_ext_in {A B : Type} (f g : A -> B -> A) (l : list B) (a : A) :
  (forall a b, In b l -> f a b = g a b) ->
  fold_left f l a = fold_left g l a.
Proof.
  revert a; induction l as [|b l IH]; intros a H; simpl.
  - reflexivity.
  - rewrite (H a b) by (left; reflexivity).
    apply IH. intros a' b' Hin. apply H. right. exact Hin.
Qed.

(** X13.  Weights that are all 1 give the same AUC as no weights. *)
Theorem AUC_unit_weights_same_as_unweighted
  (ParallelSort : (nat -> nat -> bool) -> list nat -> list nat)
  (m0 : AUCMetric.t) (labels w : list label_t) (num_data : data_size_t)
  (score : list double) (objective : option ObjectiveFunction) :
  (forall cmp l, Permutation (ParallelSort cmp l) l) ->
  (forall i, In i (range num_data) -> nth i w 0 = 1) ->
  AUCMetric.Eval ParallelSort
    (AUCMetric.Init m0 {| label := labels; weights := Some w |} num_data)
    score objective
  = AUCMetric.Eval ParallelSort
      (AUCMetric.Init m0 {| label := labels; weights := None |} num_data)
      score objective.
Proof.
  intros Hsort Hone.
  unfold AUCMetric.Eval.
  cbn [AUCMetric.Init AUCMetric.weights_ AUCMetric.label_ AUCMetric.num_data_
       AUCMetric.sum_weights_ label weights].
  set (sorted_idx :=
         ParallelSort (fun a b => dgt (nth a score 0) (nth b score 0))
                      (range num_data)).
  assert (Hperm : Permutation sorted_idx (range num_data)) by apply Hsort.
  set (v0 := {| AUCMetric.cur_pos := 0; AUCMetric.sum_pos := 0;
                AUCMetric.accum := 0; AUCMetric.cur_neg := 0;
                AUCMetric.threshold := nth (nth 0 sorted_idx 0%nat) score 0 |}).
  unfold double, label_t in *.
  rewrite (fold_left_ext_in
             (fun v i => AUCMetric.step_weights labels score w sorted_idx i v)
             (fun v i => AUCMetric.step_no_weights labels score sorted_idx i v)).
  2:{ intros a i Hi. unfold AUCMetric.step_weights, AUCMetric.step_no_weights.
      unfold double, label_t in *.
      rewrite (Hone (nth i sorted_idx 0%nat))
        by (apply in_range;
            apply (sorted_idx_in_range sorted_idx num_data i Hperm Hi)).
      rewrite !Rmult_1_r. reflexivity. }
  set (v := fold_left
              (fun v i => AUCMetric.step_no_weights labels score sorted_idx i v)
              (range num_data) v0).
  rewrite (fold_left_sum (fun i => nth i w 0)), Rplus_0_l.
  assert (Hsum : dsum (map (fun i => nth i w 0) (range num_data))
                 = INR (Z.to_nat num_data)).
  { rewrite <- range_length, <- dsum_ones. f_equal.
    apply map_ext_in. exact Hone. }
  rewrite Hsum.
  destruct (Z_le_gt_dec 0 num_data) as [Hn | Hn].
  - rewrite INR_IZR_INZ, Z2Nat.id by exact Hn. reflexivity.
  - assert (Hz : Z.to_nat num_data = 0%nat) by lia.
    subst v. unfold range. rewrite Hz. simpl.
    assert (Hg : dgt (0 + 0) 0 = false) by (apply dgt_false; lra).
    rewrite Hg. reflexivity.
Qed.

Lemma AUC_unit_weights_same_as_unweighted_witness :
  AUCMetric.Eval AUCMetric.insertion_sort
    (AUCMetric.Init sample_auc {| label := [1; 0]; weights := Some [1; 1] |}
                    2%Z)
    [3; 5] None
  = AUCMetric.Eval AUCMetric.insertion_sort
      (AUCMetric.Init sample_auc {| label := [1; 0]; weights := None |} 2%Z)
      [3; 5] None.
Proof.
  apply (AUC_unit_weights_same_as_unweighted AUCMetric.insertion_sort
           sample_auc [1; 0] [1; 1] 2%Z [3; 5] None insertion_sort_perm).
  intros i Hi. apply in_range in Hi. change (Z.to_nat 2) with 2%nat in Hi.
  destruct i as [|[|i]]; [reflexivity | reflexivity | lia].
Defined.

(** ** AUCMetric::Eval over the visited indices *)

Lemma fold_left_map {A B C : Type} (f : A -> B -> A) (g : C -> B) (l : list C)
  (a : A) :
  fold_left f (map g l) a = fold_left (fun a x => f a (g x)) l a.
Proof.
  revert a; induction l as [|x l IH]; intros a; simpl.
  - reflexivity.
  - apply IH.
Qed.

(** The loop over the positions of [sorted_idx] visits its elements in
    order. *)
Lemma loop_visits_sorted_idx (label_ score : list double) (sorted_idx : list nat)
  (n : data_size_t) (v0 : AUCMetric.locals) :
  Permutation sorted_idx (range n) ->
  fold_left (fun v i => AUCMetric.step_no_weights label_ score sorted_idx i v)
            (range n) v0
  = fold_left (fun v j => visit label_ score j v) sorted_idx v0.
Proof.
  intros Hperm.
  assert (Hlen : Z.to_nat n = List.length sorted_idx)
    by (rewrite (Permutation_length Hperm), range_length; reflexivity).
  transitivity
    (fold_left (fun v j => visit label_ score j v)
               (map (fun i => nth i sorted_idx 0%nat)
                    (seq 0 (List.length sorted_idx))) v0).
  - rewrite fold_left_map. unfold range. rewrite Hlen. reflexivity.
  - rewrite map_nth_seq. reflexivity.
Qed.

Lemma positives_negatives (label_ : list label_t) (idx : list nat) :
  0 <= positives label_ idx /\ 0 <= negatives label_ idx
  /\ negatives label_ idx + positives label_ idx = INR (List.length idx).
Proof.
  unfold positives, negatives.
  induction idx as [|j idx [IH1 [IH2 IH3]]].
  - simpl. lra.
  - cbn [map dsum fold_right List.length]. rewrite S_INR.
    unfold dsum in *.
    destruct (class_indicators (nth j label_ 0)) as [I1 [I2 I3]].
    repeat split; lra.
Qed.

Lemma positives_member (label_ : list label_t) (idx : list nat) (j : nat) :
  In j idx -> nth j label_ 0 > 0 -> 1 <= positives label_ idx.
Proof.
  unfold positives. induction idx as [|a idx IH]; intros Hin Hpos.
  - destruct Hin.
  - cbn [map dsum fold_right].
    fold (dsum (map (fun j => of_bool (dgt (nth j label_ 0) 0)) idx)).
    destruct (class_indicators (nth a label_ 0)) as [_ [I2 _]].
    destruct Hin as [-> | Hin].
    + assert (Hg : dgt (nth j label_ 0) 0 = true) by (apply dgt_true; exact Hpos).
      rewrite Hg. simpl of_bool.
      pose proof (positives_negatives label_ idx) as [H _].
      unfold positives in H. lra.
    + specialize (IH Hin Hpos). lra.
Qed.

Lemma negatives_member (label_ : list label_t) (idx : list nat) (j : nat) :
  In j idx -> nth j label_ 0 <= 0 -> 1 <= negatives label_ idx.
Proof.
  unfold negatives. induction idx as [|a idx IH]; intros Hin Hneg.
  - destruct Hin.
  - cbn [map dsum fold_right].
    fold (dsum (map (fun j => of_bool (dle (nth j label_ 0) 0)) idx)).
    destruct (class_indicators (nth a label_ 0)) as [I1 _].
    destruct Hin as [-> | Hin].
    + assert (Hg : dle (nth j label_ 0) 0 = true) by (apply dle_true; exact Hneg).
      rewrite Hg. simpl of_bool.
      pose proof (positives_negatives label_ idx) as [_ [H _]].
      unfold negatives in H. lra.
    + specialize (IH Hin Hneg). lra.
Qed.

(** Samples whose score is the current threshold only move the two running
    counters. *)
Lemma visit_tied (label_ score : list double) (c : double) (idx : list nat)
  (v : AUCMetric.locals) :
  (forall j, In j idx -> nth j score 0 = c) ->
  AUCMetric.threshold v = c ->
  let v' := fold_left (fun v j => visit label_ score j v) idx v in
  AUCMetric.threshold v' = c
  /\ AUCMetric.sum_pos v' = AUCMetric.sum_pos v
  /\ AUCMetric.accum v' = AUCMetric.accum v
  /\ AUCMetric.cur_pos v' = AUCMetric.cur_pos v + positives label_ idx
  /\ AUCMetric.cur_neg v' = AUCMetric.cur_neg v + negatives label_ idx.
Proof.
  revert v; induction idx as [|j idx IH]; intros v Hc Ht.
  - unfold positives, negatives. simpl. repeat split; lra.
  - cbn [fold_left].
    assert (Hj : nth j score 0 = c) by (apply Hc; left; reflexivity).
    assert (Hv : visit label_ score j v
                 = {| AUCMetric.cur_pos :=
                        AUCMetric.cur_pos v + of_bool (dgt (nth j label_ 0) 0);
                      AUCMetric.sum_pos := AUCMetric.sum_pos v;
                      AUCMetric.accum := AUCMetric.accum v;
                      AUCMetric.cur_neg :=
                        AUCMetric.cur_neg v + of_bool (dle (nth j label_ 0) 0);
                      AUCMetric.threshold := AUCMetric.threshold v |}).
    { unfold visit, AUCMetric.step_no_weights, AUCMetric.new_threshold.
      cbn [nth]. unfold double, label_t in *. rewrite Hj.
      assert (Hd : dneq c (AUCMetric.threshold v) = false)
        by (apply dneq_false; symmetry; exact Ht).
      rewrite Hd. reflexivity. }
    rewrite Hv. clear Hv.
    set (v1 := {| AUCMetric.cur_pos :=
                    AUCMetric.cur_pos v + of_bool (dgt (nth j label_ 0) 0);
                  AUCMetric.sum_pos := AUCMetric.sum_pos v;
                  AUCMetric.accum := AUCMetric.accum v;
                  AUCMetric.cur_neg :=
                    AUCMetric.cur_neg v + of_bool (dle (nth j label_ 0) 0);
                  AUCMetric.threshold := AUCMetric.threshold v |}).
    pose proof (IH v1 (fun a Ha => Hc a (or_intror Ha)) Ht) as IH1.
    cbv zeta in IH1 |- *.
    destruct IH1 as [H1 [H2 [H3 [H4 H5]]]].
    subst v1.
    cbn [AUCMetric.threshold AUCMetric.sum_pos AUCMetric.accum
         AUCMetric.cur_pos AUCMetric.cur_neg] in H1, H2, H3, H4, H5.
    unfold positives, negatives in *. cbn [map dsum fold_right].
    unfold dsum in *. unfold double, label_t in *.
    repeat split; try assumption; lra.
Qed.

(** X14.  Without weights, when all samples have the same score and both
    classes are present, [AUCMetric::Eval] returns exactly 1/2. *)
Theorem AUC_constant_scores_is_half
  (ParallelSort : (nat -> nat -> bool) -> list nat -> list nat)
  (m0 : AUCMetric.t) (labels : list label_t) (num_data : data_size_t)
  (score : list double) (objective : option ObjectiveFunction)
  (c : double) (p q : nat) :
  (forall cmp l, Permutation (ParallelSort cmp l) l) ->
  (forall i, In i (range num_data) -> nth i score 0 = c) ->
  In p (range num_data) -> nth p labels 0 > 0 ->
  In q (range num_data) -> nth q labels 0 <= 0 ->
  AUCMetric.Eval ParallelSort
    (AUCMetric.Init m0 {| label := labels; weights := None |} num_data)
    score objective
  = [1 / 2].
Proof.
  intros Hsort Hc Hp Hpl Hq Hql. unfold AUCMetric.Eval.
  cbn [AUCMetric.Init AUCMetric.weights_ AUCMetric.label_ AUCMetric.num_data_
       AUCMetric.sum_weights_ label weights].
  set (sorted_idx :=
         ParallelSort (fun a b => dgt (nth a score 0) (nth b score 0))
                      (range num_data)).
  assert (Hperm : Permutation sorted_idx (range num_data)) by apply Hsort.
  assert (Hn : (0 < Z.to_nat num_data)%nat) by (apply in_range in Hp; lia).
  rewrite (loop_visits_sorted_idx labels score sorted_idx num_data _ Hperm).
  assert (H0 : nth (nth 0 sorted_idx 0%nat) score 0 = c).
  { apply Hc. apply in_range.
    apply (sorted_idx_in_range sorted_idx num_data 0 Hperm).
    apply in_range. exact Hn. }
  destruct (visit_tied labels score c sorted_idx
              {| AUCMetric.cur_pos := 0; AUCMetric.sum_pos := 0;
                 AUCMetric.accum := 0; AUCMetric.cur_neg := 0;
                 AUCMetric.threshold := nth (nth 0 sorted_idx 0%nat) score 0 |})
    as [_ [H2 [H3 [H4 H5]]]].
  { intros j Hj. apply Hc. apply (Permutation_in _ Hperm). exact Hj. }
  { exact H0. }
  cbn [AUCMetric.sum_pos AUCMetric.accum AUCMetric.cur_pos AUCMetric.cur_neg]
    in H2, H3, H4, H5.
  rewrite H2, H3, H4, H5.
  pose proof (positives_negatives labels sorted_idx) as [_ [_ Hsum]].
  rewrite (Permutation_length Hperm), range_length in Hsum.
  rewrite INR_IZR_INZ, Z2Nat.id in Hsum by lia.
  pose proof (positives_member labels sorted_idx p
                (Permutation_in _ (Permutation_sym Hperm) Hp) Hpl) as HP.
  pose proof (negatives_member labels sorted_idx q
                (Permutation_in _ (Permutation_sym Hperm) Hq) Hql) as HN.
  set (P := positives labels sorted_idx) in *.
  set (N := negatives labels sorted_idx) in *.
  assert (Hg : dgt (0 + (0 + P)) 0 = true) by (apply dgt_true; lra).
  assert (Hd : dneq (0 + (0 + P)) (IZR num_data) = true)
    by (apply dneq_true; lra).
  rewrite Hg, Hd. cbn [andb]. f_equal.
  replace (IZR num_data) with (N + P) by exact Hsum.
  field. lra.
Qed.

Lemma AUC_constant_scores_is_half_witness :
  AUCMetric.Eval AUCMetric.insertion_sort
    (AUCMetric.Init sample_auc {| label := [1; 0]; weights := None |} 2%Z)
    [3; 3] None
  = [1 / 2].
Proof.
  apply (AUC_constant_scores_is_half AUCMetric.insertion_sort sample_auc
           [1; 0] 2%Z [3; 3] None 3 0%nat 1%nat insertion_sort_perm).
  - intros i Hi. apply in_range in Hi. change (Z.to_nat 2) with 2%nat in Hi.
    destruct i as [|[|i]]; [reflexivity | reflexivity | lia].
  - apply in_range. change (Z.to_nat 2) with 2%nat. lia.
  - simpl. lra.
  - apply in_range. change (Z.to_nat 2) with 2%nat. lia.
  - simpl. lra.
Defined.

(** ** AUCMetric::Eval on separated classes *)

Section Separated.

Variables label_ score : list double.

Lemma visit_fields (j : nat) (v : AUCMetric.locals) :
  visit label_ score j v
  = if dneq (nth j score 0) (AUCMetric.threshold v) then
      {| AUCMetric.cur_pos := 0 + of_bool (dgt (nth j label_ 0) 0);
         AUCMetric.sum_pos := AUCMetric.sum_pos v + AUCMetric.cur_pos v;
         AUCMetric.accum :=
           AUCMetric.accum v
           + AUCMetric.cur_neg v
             * (AUCMetric.cur_pos v * (1 / 2) + AUCMetric.sum_pos v);
         AUCMetric.cur_neg := 0 + of_bool (dle (nth j label_ 0) 0);
         AUCMetric.threshold := nth j score 0 |}
    else
      {| AUCMetric.cur_pos := AUCMetric.cur_pos v + of_bool (dgt (nth j label_ 0) 0);
         AUCMetric.sum_pos := AUCMetric.sum_pos v;
         AUCMetric.accum := AUCMetric.accum v;
         AUCMetric.cur_neg := AUCMetric.cur_neg v + of_bool (dle (nth j label_ 0) 0);
         AUCMetric.threshold := AUCMetric.threshold v |}.
Proof.
  unfold visit, AUCMetric.step_no_weights, AUCMetric.new_threshold.
  cbn [nth]. destruct (dneq _ (AUCMetric.threshold v)); reflexivity.
Qed.

Lemma indicators_negative (j : nat) :
  nth j label_ 0 <= 0 -> of_bool (dle (nth j label_ 0) 0) = 1 /\ of_bool (dgt (nth j label_ 0) 0) = 0.
Proof.
  intros H.
  assert (H1 : dle (nth j label_ 0) 0 = true) by (apply dle_true; exact H).
  assert (H2 : dgt (nth j label_ 0) 0 = false) by (apply dgt_false; exact H).
  rewrite H1, H2. split; reflexivity.
Qed.

Lemma indicators_positive (j : nat) :
  nth j label_ 0 > 0 -> of_bool (dle (nth j label_ 0) 0) = 0 /\ of_bool (dgt (nth j label_ 0) 0) = 1.
Proof.
  intros H.
  assert (H1 : dle (nth j label_ 0) 0 = false) by (apply dle_false; exact H).
  assert (H2 : dgt (nth j label_ 0) 0 = true) by (apply dgt_true; exact H).
  rewrite H1, H2. split; reflexivity.
Qed.




(** The samples the separation is about. *)
Variable U : nat -> Prop.

Hypothesis separated :
  forall a b, U a -> U b -> nth a label_ 0 > 0 -> nth b label_ 0 <= 0 -> nth a score 0 > nth b score 0.


End Separated.

(** Sorting by insertion with the comparison of [Eval] leaves the indices in
    the order of decreasing score. *)
Lemma insert_by_sorted (score : list double) (a : nat) (l : list nat) :
  StronglySorted (fun x y => nth x score 0 >= nth y score 0) l ->
  StronglySorted (fun x y => nth x score 0 >= nth y score 0)
    (AUCMetric.insert_by (fun x y => dgt (nth x score 0) (nth y score 0)) a l).
Proof.
  induction l as [|b l IH]; intros Hs; simpl.
  - constructor; constructor.
  - apply StronglySorted_inv in Hs. destruct Hs as [Hs Hb].
    destruct (dgt (nth b score 0) (nth a score 0)) eqn:Hg.
    + apply dgt_true in Hg. constructor; [apply IH; exact Hs|].
      apply (Permutation_Forall
               (Permutation_sym (insert_by_perm _ a l))).
      constructor; [lra | exact Hb].
    + apply dgt_false in Hg. constructor.
      * constructor; assumption.
      * constructor; [lra|].
        apply (Forall_impl _ (P := fun y => nth b score 0 >= nth y score 0));
          [intros y Hy; lra | exact Hb].
Qed.

Lemma insertion_sort_sorted (score : list double) (l : list nat) :
  StronglySorted (fun x y => nth x score 0 >= nth y score 0)
    (AUCMetric.insertion_sort
       (fun x y => dgt (nth x score 0) (nth y score 0)) l).
Proof.
  induction l as [|a l IH]; simpl.
  - constructor.
  - apply insert_by_sorted. exact IH.
Qed.



Section Reversed.

Variables label_ score : list double.

(** Positive samples visited while no non-positive one is pending leave the
    accumulator at 0. *)
Lemma visit_positives (idx : list nat) (v : AUCMetric.locals) :
  (forall j, In j idx -> nth j label_ 0 > 0) ->
  AUCMetric.cur_neg v = 0 ->
  AUCMetric.accum v = 0 ->
  let v' := fold_left (fun v j => visit label_ score j v) idx v in
  AUCMetric.cur_neg v' = 0 /\ AUCMetric.accum v' = 0.
Proof.
  revert v; induction idx as [|j idx IH]; intros v Hpos Hn Ha.
  - simpl. split; assumption.
  - cbn [fold_left]. cbv zeta. apply IH.
    + intros a Hin. apply Hpos. right. exact Hin.
    + rewrite visit_fields.
      destruct (indicators_positive label_ j (Hpos j (or_introl eq_refl)))
        as [I1 I2].
      destruct (dneq (nth j score 0) (AUCMetric.threshold v));
        cbn [AUCMetric.cur_neg]; rewrite I1; lra.
    + rewrite visit_fields.
      destruct (dneq (nth j score 0) (AUCMetric.threshold v));
        cbn [AUCMetric.accum]; [rewrite Hn, Ha; lra | exact Ha].
Qed.

Variable U : nat -> Prop.

Hypothesis reversed :
  forall a b, U a -> U b -> nth a label_ 0 <= 0 -> nth b label_ 0 > 0 ->
              nth a score 0 > nth b score 0.

(** Visiting samples in the order of decreasing score when every non-positive
    sample outscores every positive one: the closing accumulator stays 0. *)
Lemma visit_reversed (idx : list nat) (v : AUCMetric.locals) :
  Forall U idx ->
  StronglySorted (fun a b => nth a score 0 >= nth b score 0) idx ->
  AUCMetric.cur_pos v = 0 ->
  AUCMetric.sum_pos v = 0 ->
  AUCMetric.accum v = 0 ->
  (AUCMetric.cur_neg v = 0
   \/ exists a, U a /\ nth a label_ 0 <= 0
                /\ AUCMetric.threshold v = nth a score 0) ->
  closing_accum (fold_left (fun v j => visit label_ score j v) idx v) = 0.
Proof.
  revert v; induction idx as [|j idx IH]; intros v HU Hsorted Hp Hs Ha HT.
  - unfold closing_accum. simpl. rewrite Hp, Hs, Ha. lra.
  - apply Forall_cons_iff in HU. destruct HU as [HUj HU].
    apply StronglySorted_inv in Hsorted. destruct Hsorted as [Hsorted Hj].
    cbn [fold_left].
    destruct (Rle_dec (nth j label_ 0) 0) as [Hl | Hl].
    + (* a non-positive sample: still no positive one seen *)
      destruct (indicators_negative label_ j Hl) as [I1 I2].
      apply IH; try assumption.
      * rewrite visit_fields.
        destruct (dneq (nth j score 0) (AUCMetric.threshold v));
          cbn [AUCMetric.cur_pos]; rewrite I2; lra.
      * rewrite visit_fields.
        destruct (dneq (nth j score 0) (AUCMetric.threshold v));
          cbn [AUCMetric.sum_pos]; lra.
      * rewrite visit_fields.
        destruct (dneq (nth j score 0) (AUCMetric.threshold v));
          cbn [AUCMetric.accum]; [rewrite Hp, Hs, Ha; lra | exact Ha].
      * right. exists j. split; [exact HUj|]. split; [exact Hl|].
        rewrite visit_fields.
        destruct (dneq (nth j score 0) (AUCMetric.threshold v)) eqn:Hd;
          cbn [AUCMetric.threshold]; [reflexivity|].
        apply dneq_false in Hd. symmetry. exact Hd.
    + (* the first positive sample: only such samples follow *)
      assert (Hpos : nth j label_ 0 > 0) by lra.
      assert (Hrest : forall b, In b idx -> nth b label_ 0 > 0).
      { intros b Hb.
        destruct (Rle_dec (nth b label_ 0) 0) as [Hb0 | Hb0]; [|lra].
        exfalso. rewrite Forall_forall in Hj, HU.
        pose proof (Hj b Hb) as Hge.
        pose proof (reversed b j (HU b Hb) HUj Hb0 Hpos). lra. }
      destruct (indicators_positive label_ j Hpos) as [I1 I2].
      assert (Hv1 : AUCMetric.cur_neg (visit label_ score j v) = 0
                    /\ AUCMetric.accum (visit label_ score j v) = 0).
      { rewrite visit_fields.
        destruct (dneq (nth j score 0) (AUCMetric.threshold v)) eqn:Hd;
          cbn [AUCMetric.cur_neg AUCMetric.accum]; rewrite I1.
        - rewrite Hp, Hs, Ha. split; lra.
        - apply dneq_false in Hd.
          assert (Hn : AUCMetric.cur_neg v = 0).
          { destruct HT as [Hn | [a [HUa [Hla Hta]]]]; [exact Hn|].
            exfalso. pose proof (reversed a j HUa HUj Hla Hpos). lra. }
          rewrite Hn. split; [lra | exact Ha]. }
      destruct Hv1 as [V1 V2].
      pose proof (visit_positives idx (visit label_ score j v) Hrest V1 V2)
        as HB.
      cbv zeta in HB. destruct HB as [K1 K2].
      unfold closing_accum. rewrite K1, K2. lra.
Qed.

(** The counters of positive samples add up to their number. *)
Lemma visit_counts_positives (idx : list nat) (v : AUCMetric.locals) :
  let v' := fold_left (fun v j => visit label_ score j v) idx v in
  AUCMetric.sum_pos v' + AUCMetric.cur_pos v'
  = AUCMetric.sum_pos v + AUCMetric.cur_pos v + positives label_ idx.
Proof.
  revert v; induction idx as [|j idx IH]; intros v.
  - unfold positives. simpl. lra.
  - cbn [fold_left]. cbv zeta in IH |- *. rewrite IH.
    unfold positives, dsum. cbn [map fold_right].
    rewrite visit_fields.
    destruct (dneq (nth j score 0) (AUCMetric.threshold v));
      cbn [AUCMetric.sum_pos AUCMetric.cur_pos]; unfold double, label_t in *;
      lra.
Qed.

End Reversed.

(** X16.  Without weights, when [Common::ParallelSort] leaves the indices in
    the order of decreasing score, both classes are present and every sample
    with a non-positive label has a higher score than every sample with a
    positive label, [AUCMetric::Eval] returns exactly 0. *)
Theorem AUC_reversed_is_zero
  (ParallelSort : (nat -> nat -> bool) -> list nat -> list nat)
  (m0 : AUCMetric.t) (labels : list label_t) (num_data : data_size_t)
  (score : list double) (objective : option ObjectiveFunction) (p q : nat) :
  let sorted_idx :=
    ParallelSort (fun a b => dgt (nth a score 0) (nth b score 0))
                 (range num_data) in
  Permutation sorted_idx (range num_data) ->
  StronglySorted (fun a b => nth a score 0 >= nth b score 0) sorted_idx ->
  (forall a b, In a (range num_data) -> In b (range num_data) ->
     nth a labels 0 <= 0 -> nth b labels 0 > 0 ->
     nth a score 0 > nth b score 0) ->
  In p (range num_data) -> nth p labels 0 > 0 ->
  In q (range num_data) -> nth q labels 0 <= 0 ->
  AUCMetric.Eval ParallelSort
    (AUCMetric.Init m0 {| label := labels; weights := None |} num_data)
    score objective
  = [0].
Proof.
  intros sorted_idx Hperm Hsorted Hrev Hp Hpl Hq Hql. unfold AUCMetric.Eval.
  cbn [AUCMetric.Init AUCMetric.weights_ AUCMetric.label_ AUCMetric.num_data_
       AUCMetric.sum_weights_ label weights].
  fold sorted_idx.
  rewrite (loop_visits_sorted_idx labels score sorted_idx num_data _ Hperm).
  set (v0 := {| AUCMetric.cur_pos := 0; AUCMetric.sum_pos := 0;
                AUCMetric.accum := 0; AUCMetric.cur_neg := 0;
                AUCMetric.threshold := nth (nth 0 sorted_idx 0%nat) score 0 |}).
  assert (HU : Forall (fun a => In a (range num_data)) sorted_idx).
  { apply Forall_forall. intros a Ha. apply (Permutation_in _ Hperm). exact Ha. }
  pose proof (visit_reversed labels score (fun a => In a (range num_data))
                Hrev sorted_idx v0 HU Hsorted eq_refl eq_refl eq_refl
                (or_introl eq_refl)) as HA.
  pose proof (visit_counts_positives labels score sorted_idx v0) as HP.
  cbv zeta in HP. cbn [AUCMetric.sum_pos AUCMetric.cur_pos v0] in HP.
  set (v := fold_left (fun v j => visit labels score j v) sorted_idx v0) in *.
  fold (closing_accum v). rewrite HA, HP.
  pose proof (positives_negatives labels sorted_idx) as [_ [_ Hsum]].
  rewrite (Permutation_length Hperm), range_length in Hsum.
  assert (Hn : (0 < Z.to_nat num_data)%nat) by (apply in_range in Hp; lia).
  rewrite INR_IZR_INZ, Z2Nat.id in Hsum by lia.
  pose proof (positives_member labels sorted_idx p
                (Permutation_in _ (Permutation_sym Hperm) Hp) Hpl) as HP1.
  pose proof (negatives_member labels sorted_idx q
                (Permutation_in _ (Permutation_sym Hperm) Hq) Hql) as HN1.
  set (P := positives labels sorted_idx) in *.
  set (N := negatives labels sorted_idx) in *.
  assert (Hg : dgt (0 + 0 + P) 0 = true) by (apply dgt_true; lra).
  assert (Hd : dneq (0 + 0 + P) (IZR num_data) = true)
    by (apply dneq_true; lra).
  rewrite Hg, Hd. cbn [andb]. f_equal.
  replace (IZR num_data) with (N + P) by exact Hsum.
  field. lra.
Qed.

Lemma AUC_reversed_is_zero_witness :
  AUCMetric.Eval AUCMetric.insertion_sort
    (AUCMetric.Init sample_auc {| label := [1; 0]; weights := None |} 2%Z)
    [3; 5] None
  = [0].
Proof.
  apply (AUC_reversed_is_zero AUCMetric.insertion_sort sample_auc [1; 0] 2%Z
           [3; 5] None 0%nat 1%nat).
  - apply insertion_sort_perm.
  - apply insertion_sort_sorted.
  - intros a b Ha Hb. apply in_range in Ha, Hb.
    change (Z.to_nat 2) with 2%nat in Ha, Hb.
    destruct a as [|[|a]]; destruct b as [|[|b]]; simpl; try lra; lia.
  - apply in_range. change (Z.to_nat 2) with 2%nat. lia.
  - simpl. lra.
  - apply in_range. change (Z.to_nat 2) with 2%nat. lia.
  - simpl. lra.
Defined.

(** ** Sample weights up to a factor *)





(** ** The mean function of the tutorial *)





(** ** The covariance of the simulated process *)




(** ** AUCMetric::Eval only reads the order of the scores *)

Lemma fold_left_related {A B : Type} (Rel : A -> A -> Prop) (f g : A -> B -> A)
  (l : list B) (a a' : A) :
  Rel a a' ->
  (forall a a' b, In b l -> Rel a a' -> Rel (f a b) (g a' b)) ->
  Rel (fold_left f l a) (fold_left g l a').
Proof.
  revert a a'; induction l as [|b l IH]; intros a a' Ha Hstep; simpl.
  - exact Ha.
  - apply IH.
    + apply Hstep; [left; reflexivity | exact Ha].
    + intros x x' y Hin. apply Hstep. right. exact Hin.
Qed.

Lemma insert_by_ext (cmp cmp' : nat -> nat -> bool) (a : nat) (l : list nat) :
  (forall b, In b l -> cmp b a = cmp' b a) ->
  AUCMetric.insert_by cmp a l = AUCMetric.insert_by cmp' a l.
Proof.
  induction l as [|b l IH]; intros H; simpl.
  - reflexivity.
  - rewrite <- (H b (or_introl eq_refl)).
    destruct (cmp b a); [|reflexivity].
    f_equal. apply IH. intros x Hx. apply H. right. exact Hx.
Qed.

(** Sorting by insertion only consults the comparison. *)
Lemma insertion_sort_ext (cmp cmp' : nat -> nat -> bool) (l : list nat) :
  (forall a b, In a l -> In b l -> cmp a b = cmp' a b) ->
  AUCMetric.insertion_sort cmp l = AUCMetric.insertion_sort cmp' l.
Proof.
  induction l as [|a l IH]; intros H; simpl.
  - reflexivity.
  - fold (AUCMetric.insertion_sort cmp l).
    fold (AUCMetric.insertion_sort cmp' l).
    rewrite <- IH
      by (intros x y Hx Hy; apply H; right; assumption).
    apply insert_by_ext. intros b Hb. apply H.
    + right. apply (Permutation_in _ (insertion_sort_perm cmp l)). exact Hb.
    + left. reflexivity.
Qed.

Section Transform.

Variable f : R -> R.
Hypothesis f_increasing : forall x y, x < y -> f x < f y.

Lemma increasing_dgt (x y : R) : dgt (f x) (f y) = dgt x y.
Proof.
  destruct (dgt x y) eqn:H.
  - apply dgt_true in H. apply dgt_true. apply f_increasing. exact H.
  - apply dgt_false in H. apply dgt_false.
    destruct H as [H | ->]; [left; apply f_increasing; exact H | right; reflexivity].
Qed.

Lemma increasing_dneq (x y : R) : dneq (f x) (f y) = dneq x y.
Proof.
  destruct (dneq x y) eqn:H.
  - apply dneq_true in H. apply dneq_true. intros He.
    destruct (Rtotal_order x y) as [Hlt | [Heq | Hgt]].
    + pose proof (f_increasing x y Hlt). lra.
    + contradiction.
    + pose proof (f_increasing y x Hgt). lra.
  - apply dneq_false in H. apply dneq_false. rewrite H. reflexivity.
Qed.

Lemma nth_transformed (score : list double) (i : nat) :
  (i < List.length score)%nat ->
  nth i (map f score) 0 = f (nth i score 0).
Proof.
  intros Hi. rewrite (nth_indep _ 0 (f 0)) by (rewrite length_map; exact Hi).
  apply map_nth.
Qed.

Lemma new_threshold_transformed (s : double) (v v' : AUCMetric.locals) :
  same_up_to_threshold f v v' ->
  same_up_to_threshold f (AUCMetric.new_threshold s v)
                       (AUCMetric.new_threshold (f s) v').
Proof.
  intros [H1 [H2 [H3 [H4 H5]]]]. unfold AUCMetric.new_threshold.
  rewrite H5, increasing_dneq.
  destruct (dneq s (AUCMetric.threshold v)).
  - unfold same_up_to_threshold. simpl. rewrite H1, H2, H3, H4.
    repeat split; reflexivity.
  - unfold same_up_to_threshold. repeat split; assumption.
Qed.

Lemma step_no_weights_transformed (label_ score : list double)
  (sorted_idx : list nat) (i : nat) (v v' : AUCMetric.locals) :
  (nth i sorted_idx 0 < List.length score)%nat ->
  same_up_to_threshold f v v' ->
  same_up_to_threshold f
    (AUCMetric.step_no_weights label_ score sorted_idx i v)
    (AUCMetric.step_no_weights label_ (map f score) sorted_idx i v').
Proof.
  intros Hi Hv. unfold AUCMetric.step_no_weights.
  unfold double, label_t in *.
  rewrite (nth_transformed score _ Hi).
  destruct (new_threshold_transformed (nth (nth i sorted_idx 0%nat) score 0)
              v v' Hv) as [H1 [H2 [H3 [H4 H5]]]].
  unfold same_up_to_threshold. cbv zeta.
  cbn [AUCMetric.cur_pos AUCMetric.sum_pos AUCMetric.accum AUCMetric.cur_neg
       AUCMetric.threshold].
  unfold double, label_t in *.
  rewrite H1, H2, H3, H4, H5. repeat split; reflexivity.
Qed.

Lemma step_weights_transformed (label_ score weights_ : list double)
  (sorted_idx : list nat) (i : nat) (v v' : AUCMetric.locals) :
  (nth i sorted_idx 0 < List.length score)%nat ->
  same_up_to_threshold f v v' ->
  same_up_to_threshold f
    (AUCMetric.step_weights label_ score weights_ sorted_idx i v)
    (AUCMetric.step_weights label_ (map f score) weights_ sorted_idx i v').
Proof.
  intros Hi Hv. unfold AUCMetric.step_weights.
  unfold double, label_t in *.
  rewrite (nth_transformed score _ Hi).
  destruct (new_threshold_transformed (nth (nth i sorted_idx 0%nat) score 0)
              v v' Hv) as [H1 [H2 [H3 [H4 H5]]]].
  unfold same_up_to_threshold. cbv zeta.
  cbn [AUCMetric.cur_pos AUCMetric.sum_pos AUCMetric.accum AUCMetric.cur_neg
       AUCMetric.threshold].
  unfold double, label_t in *.
  rewrite H1, H2, H3, H4, H5. repeat split; reflexivity.
Qed.

End Transform.

(** X21.  [AUCMetric::Eval] only reads the order of the scores: for a sort
    that only consults the comparison it is given, applying a strictly
    increasing function to every score leaves the value unchanged, with or
    without weights. *)
Theorem AUC_invariant_under_increasing_transform
  (ParallelSort : (nat -> nat -> bool) -> list nat -> list nat)
  (m : AUCMetric.t) (score : list double)
  (objective : option ObjectiveFunction) (f : R -> R) :
  (forall x y, x < y -> f x < f y) ->
  (forall cmp l, Permutation (ParallelSort cmp l) l) ->
  (forall cmp cmp' l,
     (forall a b, In a l -> In b l -> cmp a b = cmp' a b) ->
     ParallelSort cmp l = ParallelSort cmp' l) ->
  (Z.to_nat (AUCMetric.num_data_ m) <= List.length score)%nat ->
  AUCMetric.Eval ParallelSort m (map f score) objective
  = AUCMetric.Eval ParallelSort m score objective.
Proof.
  intros Hf Hperm Hext Hlen. unfold AUCMetric.Eval.
  unfold double, label_t in *.
  set (n := AUCMetric.num_data_ m) in *.
  assert (Hscore : forall a, In a (range n) ->
                     nth a (map f score) 0 = f (nth a score 0)).
  { intros a Ha. apply in_range in Ha. apply nth_transformed.
    exact (Nat.lt_le_trans _ _ _ Ha Hlen). }
  assert (Hidx : ParallelSort
                   (fun a b => dgt (nth a (map f score) 0)
                                   (nth b (map f score) 0)) (range n)
                 = ParallelSort
                     (fun a b => dgt (nth a score 0) (nth b score 0))
                     (range n)).
  { apply Hext. intros a b Ha Hb.
    rewrite (Hscore a Ha), (Hscore b Hb). apply increasing_dgt. exact Hf. }
  rewrite Hidx.
  set (sorted_idx :=
         ParallelSort (fun a b => dgt (nth a score 0) (nth b score 0))
                      (range n)).
  assert (HP : Permutation sorted_idx (range n)) by apply Hperm.
  assert (Hin : forall i, In i (range n) ->
                  (nth i sorted_idx 0 < List.length score)%nat).
  { intros i Hi.
    exact (Nat.lt_le_trans _ _ _ (sorted_idx_in_range sorted_idx n i HP Hi)
             Hlen). }
  set (v0 := {| AUCMetric.cur_pos := 0; AUCMetric.sum_pos := 0;
                AUCMetric.accum := 0; AUCMetric.cur_neg := 0;
                AUCMetric.threshold := nth (nth 0 sorted_idx 0%nat) score 0 |}).
  set (v0' := {| AUCMetric.cur_pos := 0; AUCMetric.sum_pos := 0;
                 AUCMetric.accum := 0; AUCMetric.cur_neg := 0;
                 AUCMetric.threshold :=
                   nth (nth 0 sorted_idx 0%nat) (map f score) 0 |}).
  assert (Hfinal :
    forall v v',
      AUCMetric.cur_pos v' = AUCMetric.cur_pos v ->
      AUCMetric.sum_pos v' = AUCMetric.sum_pos v ->
      AUCMetric.accum v' = AUCMetric.accum v ->
      AUCMetric.cur_neg v' = AUCMetric.cur_neg v ->
      [if dgt (AUCMetric.sum_pos v' + AUCMetric.cur_pos v') 0
          && dneq (AUCMetric.sum_pos v' + AUCMetric.cur_pos v')
                  (AUCMetric.sum_weights_ m)
       then (AUCMetric.accum v'
             + AUCMetric.cur_neg v'
               * (AUCMetric.cur_pos v' * (1 / 2) + AUCMetric.sum_pos v'))
            / ((AUCMetric.sum_pos v' + AUCMetric.cur_pos v')
               * (AUCMetric.sum_weights_ m
                  - (AUCMetric.sum_pos v' + AUCMetric.cur_pos v')))
       else 1]
      = [if dgt (AUCMetric.sum_pos v + AUCMetric.cur_pos v) 0
            && dneq (AUCMetric.sum_pos v + AUCMetric.cur_pos v)
                    (AUCMetric.sum_weights_ m)
         then (AUCMetric.accum v
               + AUCMetric.cur_neg v
                 * (AUCMetric.cur_pos v * (1 / 2) + AUCMetric.sum_pos v))
              / ((AUCMetric.sum_pos v + AUCMetric.cur_pos v)
                 * (AUCMetric.sum_weights_ m
                    - (AUCMetric.sum_pos v + AUCMetric.cur_pos v)))
         else 1]).
  { intros v v' H1 H2 H3 H4. rewrite H1, H2, H3, H4. reflexivity. }
  destruct (Nat.eq_dec (Z.to_nat n) 0) as [Hz | Hz].
  - (* no sample: the loops do not run *)
    assert (Hr : range n = []) by (unfold range; rewrite Hz; reflexivity).
    rewrite Hr. destruct (AUCMetric.weights_ m); simpl; reflexivity.
  - assert (H0 : same_up_to_threshold f v0 v0').
    { unfold same_up_to_threshold, v0, v0'. simpl.
      repeat split; try reflexivity.
      apply nth_transformed. apply Hin. apply in_range. lia. }
    destruct (AUCMetric.weights_ m) as [w|].
    + pose proof (fold_left_related (same_up_to_threshold f)
                    (fun v i => AUCMetric.step_weights (AUCMetric.label_ m)
                                  score w sorted_idx i v)
                    (fun v i => AUCMetric.step_weights (AUCMetric.label_ m)
                                  (map f score) w sorted_idx i v)
                    (range n) v0 v0' H0) as HR.
      destruct HR as [H1 [H2 [H3 [H4 _]]]].
      { intros a a' i Hi Ha.
        apply (step_weights_transformed f Hf); [apply Hin; exact Hi | exact Ha]. }
      apply Hfinal; assumption.
    + pose proof (fold_left_related (same_up_to_threshold f)
                    (fun v i => AUCMetric.step_no_weights (AUCMetric.label_ m)
                                  score sorted_idx i v)
                    (fun v i => AUCMetric.step_no_weights (AUCMetric.label_ m)
                                  (map f score) sorted_idx i v)
                    (range n) v0 v0' H0) as HR.
      destruct HR as [H1 [H2 [H3 [H4 _]]]].
      { intros a a' i Hi Ha.
        apply (step_no_weights_transformed f Hf);
          [apply Hin; exact Hi | exact Ha]. }
      apply Hfinal; assumption.
Qed.

Lemma AUC_invariant_under_increasing_transform_witness :
  AUCMetric.Eval AUCMetric.insertion_sort
    (AUCMetric.Init sample_auc {| label := [1; 0]; weights := None |} 2%Z)
    (map (fun x => 2 * x + 1) [3; 5]) None
  = AUCMetric.Eval AUCMetric.insertion_sort
      (AUCMetric.Init sample_auc {| label := [1; 0]; weights := None |} 2%Z)
      [3; 5] None.
Proof.
  apply (AUC_invariant_under_increasing_transform AUCMetric.insertion_sort
           (AUCMetric.Init sample_auc {| label := [1; 0]; weights := None |}
                           2%Z)
           [3; 5] None (fun x => 2 * x + 1)).
  - intros x y Hxy. lra.
  - apply insertion_sort_perm.
  - apply insertion_sort_ext.
  - simpl. lia.
Defined.

(** ** Weights of the AUC up to a factor *)




(** ** The order of the samples *)



